(** * Node registry and heartbeat failure detector of [api_server.py]

    A shallow embedding of the control-plane core: the [Node] record, the
    [APIServer] registry with its [register_node], [get_node], [list_nodes]
    and [update_node_heartbeat] methods, one iteration of the
    [_monitor_node_health] loop, and the Flask handlers [add_node] and
    [update_heartbeat]; then the node side of [node_container.py] and the
    registry bookkeeping of [kubernetes_sim_cli.py], composed with the
    server.

    Modelling conventions.
    - [time.time()] is an input of every operation that calls it.  Readings
      are rationals ([Q]), which contain every finite double; the
      subtraction [current_time - node.last_heartbeat] is the one of the
      machine, [float_sub]: the exact difference rounded to the nearest
      double, ties to even.
    - A [string] is a Python [str] in UTF-8.
    - [uuid.uuid4()] is an input of every operation that constructs a
      [Node]: the string the call returned.
    - The dictionary [self.nodes] is a [gmap string Node].  Every entry
      holds its own [Node] object, so mutating [node.status] or
      [node.last_heartbeat] through a reference is an update of the entry
      under that node's key.
    - Log records are not part of the state.
    - An operation is atomic in [step] and [run].  The module [Threads]
      takes the methods apart into their statements, with the [Node]
      objects in a store of their own, and lets the threads interleave. *)

From Stdlib Require Import ZArith QArith Qabs Qpower Qround Lqa String Ascii.
From stdpp Require Import gmap strings list fin_maps pretty.

Open Scope Z_scope.

(** ** Python values that reach the server *)

(** A Python [float]: a finite double, an infinity, or a NaN. *)
Inductive pyfloat :=
| Finite (q : Q)
| Inf (negative : bool)
| NaN.

(** What [request.json] can hold: [None], [bool], [int], [float], [str],
    [list] and [dict] (string keys, one binding per key, first match). *)
#[local] Unset Elimination Schemes.
Inductive json :=
| JNull
| JBool (b : bool)
| JInt (z : Z)
| JFloat (f : pyfloat)
| JStr (s : string)
| JList (items : list json)
| JObj (fields : list (string * json)).
#[local] Set Elimination Schemes.

(** The exceptions the handlers can meet. *)
Inductive exn := ValueError | TypeError | OverflowError.

(** Either a raised exception or a value. *)
Definition raises (A : Type) : Type := exn + A.

Definition ret {A} (a : A) : raises A := inr a.
Definition raise {A} (e : exn) : raises A := inl e.
Definition bind {A B} (m : raises A) (k : A -> raises B) : raises B :=
  match m with
  | inl e => inl e
  | inr a => k a
  end.

(** Python truthiness, as used by [not data]. *)
Definition truthy (v : json) : bool :=
  match v with
  | JNull => false
  | JBool b => b
  | JInt z => negb (z =? 0)
  | JFloat (Finite q) => negb (Qnum q =? 0)
  | JFloat _ => true
  | JStr s => negb (String.eqb s "")
  | JList l => match l with [] => false | _ => true end
  | JObj kv => match kv with [] => false | _ => true end
  end.

(** [dict] lookup by key. *)
Fixpoint assoc (k : string) (kv : list (string * json)) : option json :=
  match kv with
  | [] => None
  | (k', v) :: rest => if String.eqb k k' then Some v else assoc k rest
  end.

Definition is_str (k : string) (v : json) : bool :=
  match v with
  | JStr s => String.eqb s k
  | _ => false
  end.

(** [k in data] for a string [k]: key membership on a dict, element
    membership on a list, substring on a string, [TypeError] otherwise. *)
Definition py_contains (k : string) (data : json) : raises bool :=
  match data with
  | JObj kv => ret (bool_decide (is_Some (assoc k kv)))
  | JList l => ret (existsb (is_str k) l)
  | JStr s => ret (bool_decide (is_Some (index 0 k s)))
  | _ => raise TypeError
  end.

(** [data[k]] for a string [k] that is [in data]: only a dict can be
    indexed by a string. *)
Definition py_getitem (data : json) (k : string) : raises json :=
  match data with
  | JObj kv => match assoc k kv with
               | Some v => ret v
               | None => raise TypeError (* KeyError; unreachable after [in] *)
               end
  | _ => raise TypeError
  end.

(** [data.get(k)] on a dict: the value, or [None]. *)
Definition py_get (data : json) (k : string) : json :=
  match data with
  | JObj kv => default JNull (assoc k kv)
  | _ => JNull
  end.

(** *** The builtin [int] *)

(** A [string] holds the UTF-8 encoding of a [str]. *)
Definition continuation (b : Z) : bool := (128 <=? b) && (b <=? 191).

(** The code points of a UTF-8 text, if it is well formed: no stray or
    missing continuation byte, no overlong form, no surrogate, nothing
    beyond U+10FFFF. *)
Fixpoint utf8_decode (l : list Z) : option (list Z) :=
  match l with
  | [] => Some []
  | b0 :: r0 =>
      if b0 <? 128 then cons b0 <$> utf8_decode r0
      else if b0 <? 224 then
        match r0 with
        | b1 :: r1 =>
            let c := (b0 - 192) * 64 + (b1 - 128) in
            if (192 <=? b0) && continuation b1 && (128 <=? c)
            then cons c <$> utf8_decode r1 else None
        | _ => None
        end
      else if b0 <? 240 then
        match r0 with
        | b1 :: b2 :: r2 =>
            let c := (b0 - 224) * 4096 + (b1 - 128) * 64 + (b2 - 128) in
            if continuation b1 && continuation b2 && (2048 <=? c)
               && negb ((55296 <=? c) && (c <=? 57343))
            then cons c <$> utf8_decode r2 else None
        | _ => None
        end
      else
        match r0 with
        | b1 :: b2 :: b3 :: r3 =>
            let c := (b0 - 240) * 262144 + (b1 - 128) * 4096
                     + (b2 - 128) * 64 + (b3 - 128) in
            if continuation b1 && continuation b2 && continuation b3
               && (65536 <=? c) && (c <=? 1114111)
            then cons c <$> utf8_decode r3 else None
        | _ => None
        end
  end.

Definition code_points (s : string) : option (list Z) :=
  utf8_decode ((fun c => Z.of_N (N_of_ascii c)) <$> list_ascii_of_string s).

(** The decimal digits of Unicode 14, as runs [(first, length)]: the
    character at [first + k] is the digit [k mod 10]. *)
Definition decimal_runs : list (Z * Z) :=
  [
    (48, 10); (1632, 10); (1776, 10); (1984, 10); (2406, 10);
    (2534, 10); (2662, 10); (2790, 10); (2918, 10); (3046, 10);
    (3174, 10); (3302, 10); (3430, 10); (3558, 10); (3664, 10);
    (3792, 10); (3872, 10); (4160, 10); (4240, 10); (6112, 10);
    (6160, 10); (6470, 10); (6608, 10); (6784, 10); (6800, 10);
    (6992, 10); (7088, 10); (7232, 10); (7248, 10); (42528, 10);
    (43216, 10); (43264, 10); (43472, 10); (43504, 10); (43600, 10);
    (44016, 10); (65296, 10); (66720, 10); (68912, 10); (69734, 10);
    (69872, 10); (69942, 10); (70096, 10); (70384, 10); (70736, 10);
    (70864, 10); (71248, 10); (71360, 10); (71472, 10); (71904, 10);
    (72016, 10); (72784, 10); (73040, 10); (73120, 10); (92768, 10);
    (92864, 10); (93008, 10); (120782, 50); (123200, 10); (123632, 10);
    (125264, 10); (130032, 10) ].

Definition unicode_decimal (c : Z) : option Z :=
  (fun run => (c - fst run) mod 10)
    <$> List.find (fun run => (fst run <=? c) && (c <? fst run + snd run))
                  decimal_runs.

(** The whitespace of Unicode from 127 up. *)
Definition unicode_spaces : list Z :=
  [
    133; 160; 5760; 8192; 8193; 8194; 8195; 8196; 8197; 8198;
    8199; 8200; 8201; 8202; 8232; 8233; 8239; 8287; 12288 ].

(** What [int] reads a character of its argument as, before it parses: a
    character below 127 is itself, whitespace beyond is a space, a decimal
    digit of any script is the ASCII digit; any other character makes the
    argument invalid. *)
Definition to_ascii (c : Z) : option ascii :=
  if c <? 127 then Some (ascii_of_N (Z.to_N c))
  else if existsb (Z.eqb c) unicode_spaces then Some " "%char
  else (fun d => ascii_of_N (Z.to_N (48 + d))) <$> unicode_decimal c.

(** The characters the parser strips from both ends: the C whitespace.
    The separators 28 to 31 are not among them. *)
Definition is_space (c : ascii) : bool :=
  let n := nat_of_ascii c in
  ((9 <=? n) && (n <=? 13) || (n =? 32))%nat.

Definition digit_val (c : ascii) : option Z :=
  let n := nat_of_ascii c in
  if ((48 <=? n) && (n <=? 57))%nat then Some (Z.of_nat n - 48) else None.

Fixpoint lstrip (l : list ascii) : list ascii :=
  match l with
  | c :: l' => if is_space c then lstrip l' else l
  | [] => []
  end.

Definition strip (l : list ascii) : list ascii :=
  rev (lstrip (rev (lstrip l))).

(** A non-empty run of decimal digits, single underscores allowed between
    two digits. *)
Fixpoint digits (acc : Z) (l : list ascii) : option Z :=
  match l with
  | [] => None
  | c :: l' =>
      match digit_val c with
      | None => None
      | Some d =>
          let acc' := acc * 10 + d in
          match l' with
          | [] => Some acc'
          | "_"%char :: l'' => digits acc' l''
          | _ => digits acc' l'
          end
      end
  end.

(** [sys.int_info.default_max_str_digits]: the longest run of digits [int]
    converts, and the longest [str] turns an [int] into. *)
Definition max_str_digits : Z := 4300.

(** The digits of a literal, underscores apart. *)
Fixpoint count_digits (l : list ascii) : Z :=
  match l with
  | [] => 0
  | c :: l' =>
      match digit_val c with
      | Some _ => 1 + count_digits l'
      | None => count_digits l'
      end
  end.

(** The literal in [text]: an optional sign, then the digits, at most
    [max_str_digits] of them. *)
Definition int_of_literal (text : list ascii) : raises Z :=
  let literal :=
    match text with
    | "+"%char :: r | "-"%char :: r => r
    | l => l
    end in
  let number :=
    match text with
    | "+"%char :: r => digits 0 r
    | "-"%char :: r => Z.opp <$> digits 0 r
    | l => digits 0 l
    end in
  match number with
  | Some z =>
      if max_str_digits <? count_digits literal then raise ValueError
      else ret z
  | None => raise ValueError
  end.

(** [int(s)] on a [str]: surrounding whitespace, then a literal; anything
    else is a [ValueError]. *)
Definition int_of_str (s : string) : raises Z :=
  match code_points s ≫= mapM to_ascii with
  | Some chars => int_of_literal (strip chars)
  | None => raise ValueError
  end.

(** Truncation toward zero. *)
Definition trunc (q : Q) : Z := Z.quot (Qnum q) (Zpos (Qden q)).

(** Whether a finite float is not a whole number. *)
Definition has_fraction (q : Q) : bool :=
  negb (Z.rem (Qnum q) (Zpos (Qden q)) =? 0).

(** [int(x)] on a float truncates toward zero; NaN and the infinities have
    no integer value. *)
Definition int_of_float (f : pyfloat) : raises Z :=
  match f with
  | Finite q => ret (trunc q)
  | Inf _ => raise OverflowError
  | NaN => raise ValueError
  end.

Definition int (v : json) : raises Z :=
  match v with
  | JInt z => ret z
  | JBool b => ret (if b then 1 else 0)
  | JFloat f => int_of_float f
  | JStr s => int_of_str s
  | JNull | JList _ | JObj _ => raise TypeError
  end.

(** ** [class Node] *)

Inductive Status := Ready | NotReady | Failed.

Definition status_str (s : Status) : string :=
  match s with
  | Ready => "Ready"
  | NotReady => "NotReady"
  | Failed => "Failed"
  end.

Record Node := mkNode {
  node_id : string;
  cpu_cores : Z;
  available_cores : Z;
  pods : list string;
  status : Status;
  last_heartbeat : Q;
  container_id : json
}.

Definition set_status (s : Status) (n : Node) : Node :=
  mkNode (node_id n) (cpu_cores n) (available_cores n) (pods n) s
         (last_heartbeat n) (container_id n).

Definition set_last_heartbeat (t : Q) (n : Node) : Node :=
  mkNode (node_id n) (cpu_cores n) (available_cores n) (pods n) (status n)
         t (container_id n).

Definition set_container_id (c : json) (n : Node) : Node :=
  mkNode (node_id n) (cpu_cores n) (available_cores n) (pods n) (status n)
         (last_heartbeat n) c.

(** [Node.__init__(cpu_cores, node_id=None)]; [uuid] is what
    [str(uuid.uuid4())] returns and [now] what [time.time()] returns. *)
Definition Node_init (cpu : Z) (given_id : option string)
    (uuid : string) (now : Q) : Node :=
  {| node_id := match given_id with
                | Some i => if String.eqb i "" then uuid else i
                | None => uuid
                end;
     cpu_cores := cpu;
     available_cores := cpu;
     pods := [];
     status := Ready;
     last_heartbeat := now;
     container_id := JNull |}.

Definition to_dict (n : Node) : json :=
  JObj [ ("node_id", JStr (node_id n));
         ("cpu_cores", JInt (cpu_cores n));
         ("available_cores", JInt (available_cores n));
         ("pods", JList (JStr <$> pods n));
         ("status", JStr (status_str (status n)));
         ("last_heartbeat", JFloat (Finite (last_heartbeat n)));
         ("container_id", container_id n) ]%string.

(** ** [class APIServer] *)

Record APIServer := mkServer {
  nodes : gmap string Node
}.

(** [self.heartbeat_timeout]: [__init__] sets it to 30 and no statement of
    the program assigns it again. *)
Definition heartbeat_timeout (self : APIServer) : Q := 30 # 1.

Definition set_nodes (m : gmap string Node) (self : APIServer) : APIServer :=
  mkServer m.

(** [APIServer.__init__]: an empty registry and a 30 second timeout. *)
Definition APIServer_init : APIServer :=
  {| nodes := ∅ |}.

Definition register_node (self : APIServer) (cpu : Z) (cid : json)
    (uuid : string) (now : Q) : Node * APIServer :=
  let new_node := set_container_id cid (Node_init cpu None uuid now) in
  (new_node, set_nodes (<[node_id new_node := new_node]> (nodes self)) self).

(** The whole method: after the insert, the logging line formats
    [cpu_cores], and [str] refuses an integer of more than
    [max_str_digits] digits with a [ValueError]; the method then does not
    return, the record being in the registry already. *)
Definition register_node_call (self : APIServer) (cpu : Z) (cid : json)
    (uuid : string) (now : Q) : raises Node * APIServer :=
  let '(new_node, self') := register_node self cpu cid uuid now in
  if 10 ^ max_str_digits <=? Z.abs cpu then (raise ValueError, self')
  else (ret new_node, self').

Definition get_node (self : APIServer) (id : string) : option Node :=
  nodes self !! id.

(** The dictionaries of all nodes.  [map_to_list] enumerates the entries in
    key order, the source in insertion order. *)
Definition list_nodes (self : APIServer) : list json :=
  (to_dict ∘ snd) <$> map_to_list (nodes self).

Definition update_node_heartbeat (self : APIServer) (id : string) (now : Q)
    : bool * APIServer :=
  match nodes self !! id with
  | Some n => (true, set_nodes (<[id := set_last_heartbeat now n]> (nodes self)) self)
  | None => (false, self)
  end.

(** [x > y] on rationals. *)
Definition Qgtb (x y : Q) : bool := negb (Qle_bool x y).

(** *** Double precision subtraction *)

Definition pow2 (k : Z) : Q := Qpower (2 # 1) k.

(** The [e] with [2^e <= q < 2^(e+1)], for a positive [q]. *)
Definition floor_log2 (q : Q) : Z :=
  let c := Z.log2 (Qnum q) - Z.log2 (Zpos (Qden q)) in
  if Qle_bool (pow2 c) q then c else c - 1.

(** The nearest integer, the even one of two that are equally near. *)
Definition round_half_even (q : Q) : Z :=
  let f := Qfloor q in
  match (q - inject_Z f ?= 1 # 2)%Q with
  | Lt => f
  | Gt => f + 1
  | Eq => if Z.even f then f else f + 1
  end.

(** The exponent of the last bit of the double nearest to [q]: 53 bits
    from the leading one, and never below that of the subnormals. *)
Definition ulp_exponent (q : Q) : Z :=
  Z.max (floor_log2 (Qabs q) - 52) (-1074).

(** Rounding to the nearest double, ties to even, the exponent not bounded
    above. *)
Definition round_double (q : Q) : Q :=
  if Qeq_bool q 0 then 0%Q
  else
    let k := ulp_exponent q in
    (inject_Z (round_half_even (q / pow2 k)) * pow2 k)%Q.

(** [x - y] on two floats: the rounded difference, an infinity when it
    leaves the range of the doubles. *)
Definition float_sub (x y : Q) : pyfloat :=
  let r := round_double (x - y) in
  if Qle_bool (pow2 1024) (Qabs r) then Inf (Qgtb 0 r) else Finite r.

(** [f > t] for a float [f] and a number [t]; Python compares the two
    values exactly. *)
Definition float_gt (f : pyfloat) (t : Q) : bool :=
  match f with
  | Finite q => Qgtb q t
  | Inf negative => negb negative
  | NaN => false
  end.

(** [current_time - node.last_heartbeat], as the scan computes it. *)
Definition elapsed (current_time : Q) (node : Node) : pyfloat :=
  float_sub current_time (last_heartbeat node).

(** A bound that is itself a double, and not negative. *)
Definition representable (t : Q) : Prop :=
  (0 <= t)%Q /\ (t < pow2 1024)%Q /\ (round_double t == t)%Q.

(** The body of the [for] loop of [_monitor_node_health] on one node. *)
Definition check_node (timeout current_time : Q) (node : Node) : Node :=
  if float_gt (float_sub current_time (last_heartbeat node)) timeout then
    match status node with
    | Ready => set_status NotReady node
    | NotReady => set_status Failed node
    | Failed => node
    end
  else node.

(** One iteration of the [while True] loop: the snapshot
    [list(self.nodes.items())] is taken first, then every node of the
    snapshot is checked in place. *)
Definition monitor_scan (self : APIServer) (current_time : Q) : APIServer :=
  let snapshot := map_to_list (nodes self) in
  set_nodes
    (foldl (fun m item => alter (check_node (heartbeat_timeout self) current_time) (fst item) m)
           (nodes self) snapshot)
    self.

(** The loop itself, cut after as many iterations as there are clock
    readings. *)
Definition monitor_node_health (self : APIServer) (readings : list Q) : APIServer :=
  foldl monitor_scan self readings.

(** ** The Flask handlers *)

(** What a handler hands back to Flask: a JSON body with a status code, or
    an exception that escapes the handler (Flask answers 500). *)
Inductive outcome :=
| Resp (body : json) (code : Z)
| Uncaught (e : exn).

Definition error_body (msg : string) : json := JObj [("error"%string, JStr msg)].

(** [POST /nodes].  [data] is [request.json]; an integer in it has at most
    [max_str_digits] digits, the JSON decoder refusing a longer one, so the
    logging line of [register_node] formats the core count. *)
Definition add_node (self : APIServer) (data : json) (uuid : string) (now : Q)
    : outcome * APIServer :=
  if negb (truthy data) then
    (Resp (error_body "CPU cores specification required") 400, self)
  else
    match py_contains "cpu_cores" data with
    | inl e => (Uncaught e, self)
    | inr false => (Resp (error_body "CPU cores specification required") 400, self)
    | inr true =>
        (* try: *)
        match bind (py_getitem data "cpu_cores") int with
        | inr cores =>
            if cores <=? 0 then
              (Resp (error_body "CPU cores must be positive") 400, self)
            else
              let cid := py_get data "container_id" in
              let '(new_node, self') := register_node self cores cid uuid now in
              (Resp (JObj [ ("message", JStr "Node added successfully");
                            ("node_id", JStr (node_id new_node));
                            ("cpu_cores", JInt (cpu_cores new_node)) ]%string)
                    201,
               self')
        (* except ValueError: *)
        | inl ValueError => (Resp (error_body "CPU cores must be a number") 400, self)
        | inl e => (Uncaught e, self)
        end
    end.

(** [GET /nodes]. *)
Definition list_nodes_view (self : APIServer) : outcome :=
  let ns := list_nodes self in
  Resp (JObj [ ("nodes", JList ns);
               ("count", JInt (Z.of_nat (length ns))) ]%string) 200.

(** [POST /nodes/<node_id>/heartbeat]. *)
Definition update_heartbeat (self : APIServer) (id : string) (now : Q)
    : outcome * APIServer :=
  let '(success, self') := update_node_heartbeat self id now in
  if success then
    (Resp (JObj [("status"%string, JStr "Heartbeat received")]) 200, self')
  else
    (Resp (error_body "Node not found") 404, self').

(** [GET /health]. *)
Definition health_check : outcome :=
  Resp (JObj [("status"%string, JStr "healthy")]) 200.

(** ** Runs of the server

    The request threads and the monitor thread act on one [APIServer]; a
    run is the sequence of their completed operations, each with the clock
    reading and the uuid it obtained. *)
Inductive Op :=
| Register (cpu : Z) (cid : json) (uuid : string) (now : Q)
| Get (id : string)
| List_
| Heartbeat (id : string) (now : Q)
| Scan (now : Q)
| PostNodes (data : json) (uuid : string) (now : Q)
| PostHeartbeat (id : string) (now : Q).

Definition step (self : APIServer) (op : Op) : APIServer :=
  match op with
  | Register cpu cid uuid now => snd (register_node self cpu cid uuid now)
  | Get _ => self
  | List_ => self
  | Heartbeat id now => snd (update_node_heartbeat self id now)
  | Scan now => monitor_scan self now
  | PostNodes data uuid now => snd (add_node self data uuid now)
  | PostHeartbeat id now => snd (update_heartbeat self id now)
  end.

Definition run (self : APIServer) (ops : list Op) : APIServer :=
  foldl step self ops.

(** Whether [POST /nodes] with this body reaches [register_node]. *)
Definition accepted (data : json) : bool :=
  truthy data &&
  match py_contains "cpu_cores" data with
  | inr true =>
      match bind (py_getitem data "cpu_cores") int with
      | inr cores => negb (cores <=? 0)
      | inl _ => false
      end
  | _ => false
  end.

(** The uuid and the clock reading an operation constructs a [Node] with,
    if it constructs one. *)
Definition registration (op : Op) : option (string * Q) :=
  match op with
  | Register _ _ uuid now => Some (uuid, now)
  | PostNodes data uuid now => if accepted data then Some (uuid, now) else None
  | _ => None
  end.

(** The uuids drawn during a run, in order: one per constructed [Node]. *)
Definition draws_of (op : Op) : list string :=
  match registration op with
  | Some (uuid, _) => [uuid]
  | None => []
  end.

Definition draws (ops : list Op) : list string := ops ≫= draws_of.

(** The transition order of the failure detector. *)
Definition rank (s : Status) : nat :=
  match s with
  | Ready => 0
  | NotReady => 1
  | Failed => 2
  end.

(** One step along Ready -> NotReady -> Failed, [Failed] absorbing. *)
Definition advance (s : Status) : Status :=
  match s with
  | Ready => NotReady
  | NotReady => Failed
  | Failed => Failed
  end.

Definition is_scan (op : Op) : bool :=
  match op with
  | Scan _ => true
  | _ => false
  end.

(** The operations that can refresh the [last_heartbeat] of node [id]. *)
Definition beats (id : string) (op : Op) : bool :=
  match op with
  | Heartbeat i _ | PostHeartbeat i _ => String.eqb i id
  | _ => false
  end.

(** What one operation does to the record of node [id], when the operation
    does not construct a node under that id. *)
Definition node_step (timeout : Q) (id : string) (n : Node) (op : Op) : Node :=
  match op with
  | Scan now => check_node timeout now n
  | Heartbeat i now | PostHeartbeat i now =>
      if String.eqb i id then set_last_heartbeat now n else n
  | _ => n
  end.

Definition node_run (timeout : Q) (id : string) (n : Node) (ops : list Op) : Node :=
  foldl (node_step timeout id) n ops.

(** The id an operation hands back to its caller when it registers a node:
    the [node_id] of the [Node] returned by [register_node], or the
    ["node_id"] field of a 201 response. *)
Definition returned_id (self : APIServer) (op : Op) : option string :=
  match op with
  | Register cpu cid uuid now =>
      Some (node_id (fst (register_node self cpu cid uuid now)))
  | PostNodes data uuid now =>
      match fst (add_node self data uuid now) with
      | Resp body code =>
          if code =? 201 then
            match py_get body "node_id" with
            | JStr i => Some i
            | _ => None
            end
          else None
      | Uncaught _ => None
      end
  | _ => None
  end.

(** Every id handed back during a run, in order. *)
Fixpoint returned_ids (self : APIServer) (ops : list Op) : list string :=
  match ops with
  | [] => []
  | op :: rest =>
      option_list (returned_id self op) ++ returned_ids (step self op) rest
  end.

(** A scan at a clock reading no more than [timeout] past [t0]; every
    other operation qualifies. *)
Definition scan_within (timeout t0 : Q) (op : Op) : bool :=
  match op with
  | Scan now => Qle_bool (now - t0) timeout
  | _ => true
  end.

(** A scan whose clock reading is more than [timeout] past [t0], as the
    scan computes it. *)
Definition scan_exceeds (timeout t0 : Q) (op : Op) : bool :=
  match op with
  | Scan now => float_gt (float_sub now t0) timeout
  | _ => false
  end.

(** Every scan of the run finds node [id] with
    [current_time - last_heartbeat <= heartbeat_timeout]. *)
Fixpoint timely (self : APIServer) (id : string) (ops : list Op) : bool :=
  match ops with
  | [] => true
  | op :: rest =>
      match nodes self !! id with
      | Some n => scan_within (heartbeat_timeout self) (last_heartbeat n) op
      | None => true
      end && timely (step self op) id rest
  end.

Definition status_of (self : APIServer) (id : string) : option Status :=
  status <$> nodes self !! id.

(** ** States and runs used to exercise the theorems *)

Definition n1 : string := "5f0c7e1a-0001".
Definition n2 : string := "5f0c7e1a-0002".

(** One node registered at clock reading 0. *)
Definition one_node : APIServer :=
  run APIServer_init [Register 4 JNull n1 (0 # 1)].

Definition n1_record : Node :=
  mkNode n1 4 4 [] Ready (0 # 1) JNull.

(** Node [n1] registered at reading 0 and found silent by the scan at 31. *)
Definition silent_run : list Op :=
  [Register 4 JNull n1 (0 # 1); Scan (31 # 1)].

(** The node then heartbeats before each of three further scans. *)
Definition revived_run : list Op :=
  [ Heartbeat n1 (32 # 1); Scan (36 # 1);
    PostHeartbeat n1 (40 # 1); Scan (41 # 1);
    Heartbeat n1 (44 # 1); Scan (46 # 1) ].

(** A timeline for a node that registers over HTTP at reading 0 and is never
    heard of again, while a second node registers and heartbeats. *)
Definition http_registration : Op :=
  PostNodes (JObj [("cpu_cores"%string, JInt 4)]) n1 (0 # 1).

Definition before_timeout : list Op :=
  [ Scan (5 # 1); Get n1;
    Register 2 JNull n2 (12 # 1);
    Heartbeat n2 (20 # 1); Scan (30 # 1) ].

Definition between_scans : list Op :=
  [ List_; PostHeartbeat n2 (36 # 1) ].

(** A call of [register_node] that does not come through [add_node]. *)
Definition direct_register (op : Op) : bool :=
  match op with
  | Register _ _ _ _ => true
  | _ => false
  end.

(** ** The node side: [node_container.py]

    Conventions for this part.  What the Docker daemon and the HTTP
    transport answer is an input; the daemon's own state, log records and
    printed text are not modelled.  A response is seen through the two
    things the code reads from it: its status code and the ["node_id"]
    string of its JSON body. *)

(** What [requests.post] returns. [node_id_field] is
    [response.json()["node_id"]], [None] when that expression raises (no
    JSON body, no such key). *)
Record Response := mkResponse {
  status_code : Z;
  node_id_field : option string
}.

(** What a client sees of a handler's outcome: the response as it is, and
    Flask's 500 page for an exception that left the handler. *)
Definition flask_response (o : outcome) : Response :=
  match o with
  | Resp body code =>
      {| status_code := code;
         node_id_field := match py_get body "node_id" with
                          | JStr i => Some i
                          | _ => None
                          end |}
  | Uncaught _ => {| status_code := 500; node_id_field := None |}
  end.

Module node_container.

Inductive DockerClient := RealDockerClient | SimulatedDockerClient.

(** A started daemon thread whose target is [_send_heartbeats]. *)
Inductive Thread := HeartbeatThread.

(** What the Docker side answers during one call: whether a client can be
    constructed, and the id of the container [containers.run] launches,
    [None] when it raises. *)
Record Docker := mkDocker {
  connects : bool;
  launched : option string
}.

Record NodeContainer := mkNodeContainer {
  cpu_cores : Z;
  api_server_url : string;
  identifier : option string;
  node_id : option string;
  docker_client : option DockerClient;
  container_id : option string;
  heartbeat_thread : option Thread;
  running : bool
}.

Definition __init__ (cpu : Z) (url : string) : NodeContainer :=
  {| cpu_cores := cpu; api_server_url := url; identifier := None;
     node_id := None; docker_client := None; container_id := None;
     heartbeat_thread := None; running := false |}.

Definition set_docker_client (c : option DockerClient) (self : NodeContainer) :=
  mkNodeContainer (cpu_cores self) (api_server_url self) (identifier self)
    (node_id self) c (container_id self) (heartbeat_thread self) (running self).

Definition set_container_id (c : option string) (self : NodeContainer) :=
  mkNodeContainer (cpu_cores self) (api_server_url self) (identifier self)
    (node_id self) (docker_client self) c (heartbeat_thread self) (running self).

Definition set_heartbeat_thread (t : option Thread) (self : NodeContainer) :=
  mkNodeContainer (cpu_cores self) (api_server_url self) (identifier self)
    (node_id self) (docker_client self) (container_id self) t (running self).

Definition set_running (r : bool) (self : NodeContainer) :=
  mkNodeContainer (cpu_cores self) (api_server_url self) (identifier self)
    (node_id self) (docker_client self) (container_id self)
    (heartbeat_thread self) r.

Definition set_node_id (i : option string) (self : NodeContainer) :=
  mkNodeContainer (cpu_cores self) (api_server_url self) (identifier self)
    i (docker_client self) (container_id self) (heartbeat_thread self)
    (running self).

(** The client is created on first use; when its constructor raises, the
    simulated client takes its place. *)
Definition _get_docker_client (self : NodeContainer) (docker : Docker)
    : DockerClient * NodeContainer :=
  match docker_client self with
  | Some c => (c, self)
  | None =>
      let c := if connects docker then RealDockerClient
               else SimulatedDockerClient in
      (c, set_docker_client (Some c) self)
  end.

Definition is_simulated_client (c : DockerClient) : bool :=
  match c with
  | SimulatedDockerClient => true
  | RealDockerClient => false
  end.

(** [f"simulated_{int(time.time())}"]. *)
Definition simulated_id (now : Q) : string :=
  "simulated_" +:+ pretty (trunc now).

(** [if self.container_id and not isinstance(self._get_docker_client(), ...)]:
    the client is looked up, and created if need be, only for a non-empty
    container id; stopping and removing the container happens in the
    daemon. *)
Definition _cleanup_container (self : NodeContainer) (docker : Docker)
    : NodeContainer :=
  match container_id self with
  | Some c => if String.eqb c "" then self
              else snd (_get_docker_client self docker)
  | None => self
  end.

(** The body of the registration request. *)
Definition registration_body (self : NodeContainer) : json :=
  JObj [ ("cpu_cores", JInt (cpu_cores self));
         ("container_id", match container_id self with
                          | Some c => JStr c
                          | None => JNull
                          end) ]%string.

(** [start]. [post] is the exchange with [POST /nodes]: the response, or
    [None] when [requests.post] raises. *)
Definition start (self : NodeContainer) (docker : Docker) (now : Q)
    (post : json -> option Response) : bool * NodeContainer :=
  let '(client, self) := _get_docker_client self docker in
  let is_simulated := is_simulated_client client in
  let '(is_simulated, self) :=
    if negb is_simulated then
      match launched docker with
      | Some cid => (false, set_container_id (Some cid) self)
      | None => (true, self)
      end
    else (true, self) in
  let self :=
    if is_simulated then set_container_id (Some (simulated_id now)) self
    else self in
  match post (registration_body self) with
  | Some response =>
      if status_code response =? 201 then
        match node_id_field response with
        | Some id =>
            (true,
             set_heartbeat_thread (Some HeartbeatThread)
               (set_running true (set_node_id (Some id) self)))
        | None => (false, _cleanup_container self docker)
        end
      else (false, _cleanup_container self docker)
  | None => (false, _cleanup_container self docker)
  end.

(** The path segment [_send_heartbeats] puts after [/nodes/]. *)
Definition heartbeat_target (self : NodeContainer) : string :=
  match node_id self with
  | Some i => i
  | None => "None"
  end.

Definition stop (self : NodeContainer) (docker : Docker) : NodeContainer :=
  _cleanup_container (set_running false self) docker.

(** The pickled state: a copy of the attributes without the client and
    the thread. *)
Definition __getstate__ (self : NodeContainer) : NodeContainer :=
  set_heartbeat_thread None (set_docker_client None self).

(** Unpickling: the attributes of the state, and a new heartbeat thread
    when the node was running. *)
Definition __setstate__ (state : NodeContainer) : NodeContainer :=
  if running state then set_heartbeat_thread (Some HeartbeatThread) state
  else state.

(** The helper [add_node(cpu_cores, api_server_url)]. *)
Definition add_node (cpu : Z) (url : string) (docker : Docker) (now : Q)
    (post : json -> option Response) : option NodeContainer :=
  let '(success, node) := start (__init__ cpu url) docker now post in
  if success then Some node else None.

End node_container.

(** ** The command line: [kubernetes_sim_cli.py] *)

Module kubernetes_sim_cli.
Import node_container.

(** [active_nodes] is a [gmap] keyed by [node.node_id], which is [None]
    until a registration succeeds. *)

(** The file [node_registry.pkl]: absent, not loadable, or the pickled
    states of the nodes of a registry. *)
Inductive registry_file :=
| Absent
| Unreadable
| Pickled (states : gmap (option string) NodeContainer).

(** [load_nodes]: [active_nodes] is replaced only by a successful load. *)
Definition load_nodes (active_nodes : gmap (option string) NodeContainer)
    (file : registry_file) : gmap (option string) NodeContainer :=
  match file with
  | Pickled states => __setstate__ <$> states
  | Absent | Unreadable => active_nodes
  end.

(** [save_nodes]; [writable] tells whether the file can be opened for
    writing. *)
Definition save_nodes (active_nodes : gmap (option string) NodeContainer)
    (writable : bool) (file : registry_file) : registry_file :=
  if writable then Pickled (__getstate__ <$> active_nodes) else file.

(** [add_node(args)]; [arg] is [args.cpu_cores], the text typed on the
    command line.  The result is the exit code, [active_nodes] and the
    file. *)
Definition add_node (active_nodes : gmap (option string) NodeContainer)
    (file : registry_file) (arg : string) (url : string) (docker : Docker)
    (now : Q) (post : json -> option Response) (writable : bool)
    : Z * gmap (option string) NodeContainer * registry_file :=
  match int_of_str arg with
  | inr cores =>
      if cores <=? 0 then (1, active_nodes, file)
      else
        let '(success, node) := start (__init__ cores url) docker now post in
        if success then
          let active_nodes := <[node_id node := node]> active_nodes in
          (0, active_nodes, save_nodes active_nodes writable file)
        else (1, active_nodes, file)
  | inl _ => (1, active_nodes, file)
  end.


(** [stop_all_nodes(args)]: every node of the snapshot
    [list(active_nodes.items())] is stopped and deleted, then the file is
    saved. *)
Definition stop_all_nodes (active_nodes : gmap (option string) NodeContainer)
    (file : registry_file) (writable : bool)
    : Z * gmap (option string) NodeContainer * registry_file :=
  if decide (active_nodes = ∅) then (0, active_nodes, file)
  else
    let snapshot := map_to_list active_nodes in
    let active_nodes :=
      foldl (fun acc item => delete (fst item) acc) active_nodes snapshot in
    (0, active_nodes, save_nodes active_nodes writable file).

End kubernetes_sim_cli.

(** The server [self] behind [POST /nodes], as the transport of a client:
    the request always reaches it. *)
Definition post_nodes (self : APIServer) (uuid : string) (now : Q)
    (body : json) : option Response :=
  Some (flask_response (fst (add_node self body uuid now))).

(** ** The threads of the server, statement by statement

    Flask serves every request on a thread of its own and
    [APIServer.__init__] starts the monitor thread; all of them act on the
    one [api_server] object, and no statement of the program takes a lock.
    Here the methods run one step at a time, in any interleaving.  A
    [Node] object lives at an address of the store [objects], and
    [self.nodes] maps an id to an address, in insertion order, as a Python
    dictionary does: the same object is reached from the dictionary, from
    the snapshot of a scan and from the local variable of the thread that
    constructs it.

    A step is a statement, or one evaluation of a loop head or of a
    condition.  CPython runs one thread at a time and, as of version 3.11,
    lets another one in at a call, at a backward jump or at the entry of a
    function; each of these points lies between two steps, or between a
    reading of the clock and the step that uses the reading.
    [Node(cpu_cores)] is one step: the object it constructs is known to its
    own thread only, until the method stores it. *)
Module Threads.

Definition dict := list (string * nat).

(** [d.get(k)], or [k in d] when only tested. *)
Fixpoint dict_get (k : string) (d : dict) : option nat :=
  match d with
  | [] => None
  | (k', v) :: rest => if String.eqb k' k then Some v else dict_get k rest
  end.

(** [d[k] = v]: a key already there keeps its place, a new key goes last. *)
Fixpoint dict_set (k : string) (v : nat) (d : dict) : dict :=
  match d with
  | [] => [(k, v)]
  | (k', v') :: rest =>
      if String.eqb k' k then (k, v) :: rest else (k', v') :: dict_set k v rest
  end.

(** Where the monitor stands inside the body of its [for] loop, past the
    timeout test:
    [if node.status == "Ready":], [node.status = "NotReady"],
    [elif node.status == "NotReady":], [node.status = "Failed"]. *)
Inductive NodePc := IfReady | MarkNotReady | ElifNotReady | MarkFailed.

(** The next statement of [_monitor_node_health]:
    - [AtClock]: [current_time = time.time()];
    - [AtSnapshot]: [list(self.nodes.items())], the head of the [for];
    - [AtTest]: with an item left,
      [if current_time - node.last_heartbeat > self.heartbeat_timeout:] on
      the first one, with none left [time.sleep(5)];
    - [AtNode]: a statement of the body, for the item [(node_id, node)];
    - [Faulted]: the thread has met an address with no object behind it
      and has died of the exception. *)
Inductive Monitor :=
| AtClock
| AtSnapshot (current_time : Q)
| AtTest (current_time : Q) (items : dict)
| AtNode (pc : NodePc) (current_time : Q) (node_id : string) (node : nat)
         (items : dict)
| Faulted.

(** The next statement of a request thread.  In [register_node]:
    - [AtNew]: [new_node = Node(cpu_cores)];
    - [AtSetContainer]: [new_node.container_id = container_id];
    - [AtStore]: [self.nodes[new_node.node_id] = new_node];
    in [update_node_heartbeat]:
    - [AtMember]: [if node_id in self.nodes:];
    - [AtBeat]: [self.nodes[node_id].last_heartbeat = time.time()];
    in [list_nodes], whose comprehension iterates over
    [self.nodes.values()] itself:
    - [AtValues]: the iterator is made; it notes the size of the dictionary;
    - [AtNext]: the iterator is asked for the next node, and raises
      [RuntimeError] if the dictionary has changed size;
    - [AtToDict]: [node.to_dict()];
    - [Listed]: the list is complete; [ListAborted]: the iterator raised;
    and [Returned] once a method has no access to the registry left. *)
Inductive Request :=
| AtNew (cpu_cores : Z) (container_id : json)
| AtSetContainer (container_id : json) (new_node : nat)
| AtStore (new_node : nat)
| AtMember (node_id : string)
| AtBeat (node_id : string)
| AtValues
| AtNext (pos size : nat) (acc : list json)
| AtToDict (node : nat) (pos size : nat) (acc : list json)
| Listed (result : list json)
| ListAborted
| Returned.

(** [history] is not part of the program: it records the operations in the
    order in which they took effect, a registration at its dictionary
    store, a heartbeat at its attribute store, a scan at its snapshot. *)
Record World := mkWorld {
  objects : list Node;
  self_nodes : dict;
  monitor : Monitor;
  requests : list Request;
  history : list Op
}.

Definition init : World :=
  {| objects := []; self_nodes := []; monitor := AtClock;
     requests := []; history := [] |}.

(** The monitor thread runs its next statement; [clock] is what
    [time.time()] returns if the statement calls it. *)
Definition monitor_turn (w : World) (clock : Q) : World :=
  let goto m := mkWorld (objects w) (self_nodes w) m (requests w) (history w) in
  let mark s node m :=
    mkWorld (alter (set_status s) node (objects w)) (self_nodes w) m
            (requests w) (history w) in
  match monitor w with
  | AtClock => goto (AtSnapshot clock)
  | AtSnapshot t =>
      mkWorld (objects w) (self_nodes w) (AtTest t (self_nodes w))
              (requests w) (history w ++ [Scan t])
  | AtTest t [] => goto AtClock
  | AtTest t ((node_id, node) :: items) =>
      match objects w !! node with
      | Some n =>
          if float_gt (float_sub t (last_heartbeat n))
                      (heartbeat_timeout APIServer_init)
          then goto (AtNode IfReady t node_id node items)
          else goto (AtTest t items)
      | None => goto Faulted
      end
  | AtNode IfReady t node_id node items =>
      match objects w !! node with
      | Some n =>
          match status n with
          | Ready => goto (AtNode MarkNotReady t node_id node items)
          | _ => goto (AtNode ElifNotReady t node_id node items)
          end
      | None => goto Faulted
      end
  | AtNode MarkNotReady t node_id node items =>
      mark NotReady node (AtTest t items)
  | AtNode ElifNotReady t node_id node items =>
      match objects w !! node with
      | Some n =>
          match status n with
          | NotReady => goto (AtNode MarkFailed t node_id node items)
          | _ => goto (AtTest t items)
          end
      | None => goto Faulted
      end
  | AtNode MarkFailed t node_id node items =>
      mark Failed node (AtTest t items)
  | Faulted => w
  end.

(** Request thread number [thread] runs its next statement; [uuid] and
    [clock] are what [uuid.uuid4()] and [time.time()] return if the
    statement calls them. *)
Definition request_turn (w : World) (thread : nat) (uuid : string) (clock : Q)
    : World :=
  let goto r := <[thread := r]> (requests w) in
  match requests w !! thread with
  | Some (AtNew cpu cid) =>
      mkWorld (objects w ++ [Node_init cpu None uuid clock]) (self_nodes w)
              (monitor w) (goto (AtSetContainer cid (length (objects w))))
              (history w)
  | Some (AtSetContainer cid new_node) =>
      mkWorld (alter (set_container_id cid) new_node (objects w))
              (self_nodes w) (monitor w) (goto (AtStore new_node)) (history w)
  | Some (AtStore new_node) =>
      match objects w !! new_node with
      | Some n =>
          mkWorld (objects w) (dict_set (node_id n) new_node (self_nodes w))
                  (monitor w) (goto Returned)
                  (history w ++ [Register (cpu_cores n) (container_id n)
                                          (node_id n) (last_heartbeat n)])
      | None => w
      end
  | Some (AtMember id) =>
      mkWorld (objects w) (self_nodes w) (monitor w)
              (goto (match dict_get id (self_nodes w) with
                     | Some _ => AtBeat id
                     | None => Returned
                     end))
              (history w)
  | Some (AtBeat id) =>
      match dict_get id (self_nodes w) with
      | Some node =>
          mkWorld (alter (set_last_heartbeat clock) node (objects w))
                  (self_nodes w) (monitor w) (goto Returned)
                  (history w ++ [Heartbeat id clock])
      | None => mkWorld (objects w) (self_nodes w) (monitor w) (goto Returned)
                        (history w)
      end
  | Some AtValues =>
      mkWorld (objects w) (self_nodes w) (monitor w)
              (goto (AtNext 0 (length (self_nodes w)) [])) (history w)
  | Some (AtNext pos size acc) =>
      mkWorld (objects w) (self_nodes w) (monitor w)
              (goto (if negb (length (self_nodes w) =? size)%nat then ListAborted
                     else match self_nodes w !! pos with
                          | Some (_, node) => AtToDict node (S pos) size acc
                          | None => Listed acc
                          end))
              (history w)
  | Some (AtToDict node pos size acc) =>
      match objects w !! node with
      | Some n =>
          mkWorld (objects w) (self_nodes w) (monitor w)
                  (goto (AtNext pos size (acc ++ [to_dict n]))) (history w)
      | None => w
      end
  | Some (Listed _) | Some ListAborted | Some Returned | None => w
  end.

(** What the scheduler and the clients do next: a request arrives and gets
    a thread, or one of the threads runs a statement. *)
Inductive Turn :=
| CallRegister (cpu_cores : Z) (container_id : json)
| CallHeartbeat (node_id : string)
| CallList
| RequestTurn (thread : nat) (uuid : string) (clock : Q)
| MonitorTurn (clock : Q).

Definition spawn (w : World) (r : Request) : World :=
  mkWorld (objects w) (self_nodes w) (monitor w) (requests w ++ [r])
          (history w).

Definition exec_turn (w : World) (turn : Turn) : World :=
  match turn with
  | CallRegister cpu cid => spawn w (AtNew cpu cid)
  | CallHeartbeat id => spawn w (AtMember id)
  | CallList => spawn w AtValues
  | RequestTurn thread uuid clock => request_turn w thread uuid clock
  | MonitorTurn clock => monitor_turn w clock
  end.

Definition exec (w : World) (turns : list Turn) : World :=
  foldl exec_turn w turns.



(** The items the scan in progress has still to visit, the one it is
    visiting included. *)
Definition scan_items (m : Monitor) : dict :=
  match m with
  | AtTest _ items => items
  | AtNode _ _ node_id node items => (node_id, node) :: items
  | _ => []
  end.

(** The object a thread has constructed and not yet stored. *)
Definition private (r : Request) : option nat :=
  match r with
  | AtSetContainer _ new_node | AtStore new_node => Some new_node
  | _ => None
  end.

(** The object a listing is about to read. *)
Definition held (r : Request) : option nat :=
  match r with
  | AtToDict node _ _ _ => Some node
  | _ => None
  end.

(** The dictionaries a listing has produced so far. *)
Definition listed (r : Request) : list json :=
  match r with
  | AtNext _ _ acc | AtToDict _ _ _ acc | Listed acc => acc
  | _ => []
  end.

(** A record as a completed [register_node] leaves it, whatever its status
    and its last heartbeat have become since: the registration is in the
    history with this id, core count and container id. *)
Definition stored (h : list Op) (n : Node) : Prop :=
  available_cores n = cpu_cores n /\ pods n = [] /\
  exists now, Register (cpu_cores n) (container_id n) (node_id n) now ∈ h.

(** The entries within reach of a reader: those of the dictionary and
    those the scan in progress has still to visit. *)
Definition reach (w : World) : dict := self_nodes w ++ scan_items (monitor w).

(** What holds of the store in every world the threads can bring about:
    every entry within reach, and every object a listing reads, is a
    stored record under its own id; an object under construction is known
    to one thread only and is fresh. *)
Record Wf (w : World) : Prop := mkWf {
  wf_keys : NoDup (self_nodes w).*1;
  wf_items : NoDup (scan_items (monitor w)).*1;
  wf_alive : monitor w <> Faulted;
  wf_reach : forall id node, (id, node) ∈ reach w ->
    exists n, objects w !! node = Some n /\ node_id n = id /\
              stored (history w) n;
  wf_held : forall thread r node,
    requests w !! thread = Some r -> held r = Some node ->
    exists n, objects w !! node = Some n /\ stored (history w) n;
  wf_listed : forall thread r j,
    requests w !! thread = Some r -> j ∈ listed r ->
    exists n, j = to_dict n /\ stored (history w) n;
  wf_private : forall thread r node,
    requests w !! thread = Some r -> private r = Some node ->
    (exists n, objects w !! node = Some n /\ status n = Ready /\
               available_cores n = cpu_cores n /\ pods n = []) /\
    (node ∉ (reach w).*2) /\
    (forall thread' r', requests w !! thread' = Some r' ->
                        held r' <> Some node) /\
    (forall thread' r', requests w !! thread' = Some r' ->
                        private r' = Some node -> thread' = thread)
}.
















(** A listing that a registration overtakes: the iterator is made over an
    empty dictionary, a node is stored, the iterator is asked for its first
    node. *)
Definition overtaken_listing : list Turn :=
  [ CallList; RequestTurn 0 n1 (0 # 1);
    CallRegister 4 JNull;
    RequestTurn 1 n1 (0 # 1); RequestTurn 1 n1 (0 # 1); RequestTurn 1 n1 (0 # 1);
    RequestTurn 0 n1 (0 # 1) ].

End Threads.

(** * Properties *)

(** ** Clock comparisons *)

Lemma Qgtb_true (x y : Q) : Qgtb x y = true <-> (y < x)%Q.
Proof.
  unfold Qgtb. rewrite negb_true_iff, <- not_true_iff_false, Qle_bool_iff.
  split; [apply Qnot_le_lt | apply Qlt_not_le].
Qed.

Lemma Qgtb_false (x y : Q) : Qgtb x y = false <-> (x <= y)%Q.
Proof. unfold Qgtb. rewrite negb_false_iff. apply Qle_bool_iff. Qed.

(** ** Rounding to the nearest double *)

Lemma pow2_pos k : (0 < pow2 k)%Q.
Proof. apply Qpower_0_lt. reflexivity. Qed.

Lemma pow2_plus a b : (pow2 (a + b) == pow2 a * pow2 b)%Q.
Proof. apply Qpower_plus. discriminate. Qed.

Lemma pow2_le a b : a <= b -> (pow2 a <= pow2 b)%Q.
Proof. intros H. apply Qpower_le_compat_l; [exact H | discriminate]. Qed.

Lemma pow2_lt_inv a b : (pow2 a < pow2 b)%Q -> a < b.
Proof. intros H. apply (Qpower_lt_compat_l_inv (2 # 1)); [exact H | reflexivity]. Qed.

Lemma pow2_inject k : 0 <= k -> (pow2 k == inject_Z (2 ^ k))%Q.
Proof. intros H. unfold pow2. now rewrite Zpower_Qpower. Qed.

(** the quotient of two powers of two *)
Lemma pow2_div j k : (pow2 j / pow2 k == pow2 (j - k))%Q.
Proof.
  replace j with ((j - k) + k) at 1 by ring. rewrite pow2_plus.
  field. pose proof (pow2_pos k). lra.
Qed.

Lemma round_half_even_floor q :
  Qfloor q <= round_half_even q <= Qfloor q + 1.
Proof.
  unfold round_half_even.
  destruct (q - inject_Z (Qfloor q) ?= 1 # 2)%Q; [destruct (Z.even _)| |]; lia.
Qed.

Lemma round_half_even_ge q n : (inject_Z n <= q)%Q -> n <= round_half_even q.
Proof.
  intros H. apply Qfloor_resp_le in H. rewrite Qfloor_Z in H.
  pose proof (round_half_even_floor q). lia.
Qed.

Lemma round_half_even_le q n : (q <= inject_Z n)%Q -> round_half_even q <= n.
Proof.
  intros H. pose proof (Qfloor_le q) as Hf.
  assert (Hfn : Qfloor q <= n).
  { rewrite Zle_Qle. lra. }
  unfold round_half_even.
  destruct (Qcompare_spec (q - inject_Z (Qfloor q)) (1 # 2)) as [He|Hl|Hg];
    [destruct (Z.even _)| |]; try lia.
  - assert (Qfloor q < n); [|lia]. rewrite Zlt_Qlt. lra.
  - assert (Qfloor q < n); [|lia]. rewrite Zlt_Qlt. lra.
Qed.

Lemma round_half_even_mono p q :
  (p <= q)%Q -> round_half_even p <= round_half_even q.
Proof.
  intros H. pose proof (Qfloor_resp_le _ _ H) as Hf.
  pose proof (round_half_even_floor p) as Hp.
  pose proof (round_half_even_floor q) as Hq.
  destruct (Z.eq_dec (Qfloor p) (Qfloor q)) as [He|Hne]; [|lia].
  unfold round_half_even in *. rewrite He in *.
  destruct (Qcompare_spec (p - inject_Z (Qfloor q)) (1 # 2)) as [Hp1|Hp1|Hp1];
    destruct (Qcompare_spec (q - inject_Z (Qfloor q)) (1 # 2)) as [Hq1|Hq1|Hq1];
    try destruct (Z.even _); try lia; exfalso; lra.
Qed.

Lemma floor_log2_spec q :
  (0 < q)%Q -> (pow2 (floor_log2 q) <= q < pow2 (floor_log2 q + 1))%Q.
Proof.
  intros Hq. destruct q as [n d]. assert (Hn : 0 < n).
  { unfold Qlt in Hq. simpl in Hq. lia. }
  unfold floor_log2. cbn [Qnum Qden].
  set (a := Z.log2 n). set (b := Z.log2 (Zpos d)).
  destruct (Z.log2_spec n Hn) as [Ha1 Ha2]. fold a in Ha1, Ha2.
  destruct (Z.log2_spec (Zpos d) (Pos2Z.is_pos d)) as [Hb1 Hb2].
  fold b in Hb1, Hb2.
  assert (Ha0 : 0 <= a) by apply Z.log2_nonneg.
  assert (Hb0 : 0 <= b) by apply Z.log2_nonneg.
  assert (Hlow : (pow2 (a - b - 1) <= n # d)%Q).
  { replace (a - b - 1) with (a - (b + 1)) by ring.
    rewrite <- pow2_div, (pow2_inject a), (pow2_inject (b + 1)) by lia.
    rewrite Qmake_Qdiv.
    apply Qle_shift_div_l.
    { change 0%Q with (inject_Z 0). rewrite <- Zlt_Qlt. lia. }
    unfold Qdiv. rewrite <- Qmult_assoc, (Qmult_comm (/ _)), Qmult_assoc.
    apply Qle_shift_div_r.
    { change 0%Q with (inject_Z 0). rewrite <- Zlt_Qlt. lia. }
    rewrite <- !inject_Z_mult, <- Zle_Qle.
    replace (b + 1) with (Z.succ b) by lia. nia. }
  assert (Hhigh : (n # d < pow2 (a - b + 1))%Q).
  { replace (a - b + 1) with (a + 1 - b) by ring.
    rewrite <- pow2_div, (pow2_inject (a + 1)), (pow2_inject b) by lia.
    rewrite Qmake_Qdiv.
    apply Qlt_shift_div_r.
    { change 0%Q with (inject_Z 0). rewrite <- Zlt_Qlt. lia. }
    unfold Qdiv. rewrite <- Qmult_assoc, (Qmult_comm (/ _)), Qmult_assoc.
    apply Qlt_shift_div_l.
    { change 0%Q with (inject_Z 0). rewrite <- Zlt_Qlt. lia. }
    rewrite <- !inject_Z_mult, <- Zlt_Qlt.
    replace (a + 1) with (Z.succ a) by lia. nia. }
  destruct (Qle_bool (pow2 (a - b)) (n # d)) eqn:Hc.
  - apply Qle_bool_iff in Hc. split; assumption.
  - replace (a - b - 1 + 1) with (a - b) by ring. split; [assumption|].
    apply Qnot_le_lt. intros Hle. apply Qle_bool_iff in Hle. congruence.
Qed.

Lemma round_to_le_grid k j x :
  k <= j -> (x <= pow2 j)%Q ->
  (inject_Z (round_half_even (x / pow2 k)) * pow2 k <= pow2 j)%Q.
Proof.
  intros Hkj Hx. pose proof (pow2_pos k) as Hk.
  assert (Hg : (pow2 j == inject_Z (2 ^ (j - k)) * pow2 k)%Q).
  { rewrite <- pow2_inject, <- pow2_plus by lia. now replace (j - k + k) with j by ring. }
  rewrite Hg. apply Qmult_le_compat_r; [|lra].
  rewrite <- Zle_Qle. apply round_half_even_le.
  apply Qle_shift_div_r; [exact Hk|]. now rewrite <- Hg.
Qed.

Lemma round_to_ge_grid k j x :
  k <= j -> (pow2 j <= x)%Q ->
  (pow2 j <= inject_Z (round_half_even (x / pow2 k)) * pow2 k)%Q.
Proof.
  intros Hkj Hx. pose proof (pow2_pos k) as Hk.
  assert (Hg : (pow2 j == inject_Z (2 ^ (j - k)) * pow2 k)%Q).
  { rewrite <- pow2_inject, <- pow2_plus by lia. now replace (j - k + k) with j by ring. }
  rewrite Hg. apply Qmult_le_compat_r; [|lra].
  rewrite <- Zle_Qle. apply round_half_even_ge.
  apply Qle_shift_div_l; [exact Hk|]. now rewrite <- Hg.
Qed.

Lemma Qabs_positive x : (0 < x)%Q -> Qabs x = x.
Proof.
  destruct x as [n d]. unfold Qlt. simpl. intros H.
  now rewrite Z.abs_eq by lia.
Qed.

Lemma round_double_positive x :
  (0 < x)%Q ->
  round_double x
  = (inject_Z (round_half_even (x / pow2 (Z.max (floor_log2 x - 52) (-1074))))
     * pow2 (Z.max (floor_log2 x - 52) (-1074)))%Q.
Proof.
  intros Hx. unfold round_double, ulp_exponent.
  rewrite (Qabs_positive x Hx).
  destruct (Qeq_bool x 0) eqn:He; [|reflexivity].
  apply Qeq_bool_iff in He. lra.
Qed.

Lemma round_double_nonpos x : (x <= 0)%Q -> (round_double x <= 0)%Q.
Proof.
  intros Hx. unfold round_double.
  destruct (Qeq_bool x 0); [lra|].
  pose proof (pow2_pos (ulp_exponent x)) as Hk.
  assert (Hr : round_half_even (x / pow2 (ulp_exponent x)) <= 0).
  { apply round_half_even_le. apply Qle_shift_div_r; [exact Hk|].
    change (inject_Z 0) with 0%Q. lra. }
  rewrite Zle_Qle in Hr. change (inject_Z 0) with 0%Q in Hr.
  apply Qle_trans with (0 * pow2 (ulp_exponent x))%Q; [|lra].
  apply Qmult_le_compat_r; [exact Hr | lra].
Qed.

Lemma round_double_mono_pos x y :
  (0 < x)%Q -> (x <= y)%Q -> (round_double x <= round_double y)%Q.
Proof.
  intros Hx Hxy. assert (Hy : (0 < y)%Q) by lra.
  rewrite (round_double_positive x Hx), (round_double_positive y Hy).
  destruct (floor_log2_spec x Hx) as [Hx1 Hx2].
  destruct (floor_log2_spec y Hy) as [Hy1 Hy2].
  assert (He : floor_log2 x <= floor_log2 y).
  { assert (floor_log2 x < floor_log2 y + 1); [|lia].
    apply pow2_lt_inv. lra. }
  set (kx := Z.max (floor_log2 x - 52) (-1074)).
  set (ky := Z.max (floor_log2 y - 52) (-1074)).
  destruct (Z.eq_dec kx ky) as [Hk|Hk].
  - rewrite Hk. pose proof (pow2_pos ky) as Hp.
    apply Qmult_le_compat_r; [|lra]. rewrite <- Zle_Qle.
    apply round_half_even_mono.
    apply Qmult_le_compat_r; [exact Hxy|].
    apply Qlt_le_weak, Qinv_lt_0_compat, Hp.
  - assert (Hlt : floor_log2 x + 1 <= floor_log2 y) by lia.
    apply Qle_trans with (pow2 (floor_log2 y)).
    + apply round_to_le_grid; [lia|].
      pose proof (pow2_le _ _ Hlt). lra.
    + apply round_to_ge_grid; [lia | exact Hy1].
Qed.

Lemma round_double_le_representable t x :
  representable t -> (x <= t)%Q -> (round_double x <= t)%Q.
Proof.
  intros (Ht0 & _ & Ht) Hx.
  destruct (Qlt_le_dec 0 x) as [Hpos|Hneg].
  - rewrite <- Ht. now apply round_double_mono_pos.
  - pose proof (round_double_nonpos x Hneg). lra.
Qed.

Lemma round_double_mono_gt t x y :
  (0 <= t)%Q -> (x <= y)%Q -> (t < round_double x)%Q -> (t < round_double y)%Q.
Proof.
  intros Ht Hxy Hx.
  destruct (Qlt_le_dec 0 x) as [Hpos|Hneg].
  - pose proof (round_double_mono_pos x y Hpos Hxy). lra.
  - pose proof (round_double_nonpos x Hneg). lra.
Qed.

(** Comparing a difference of doubles with a representable bound. *)
Lemma float_gt_sub t x y :
  (0 <= t)%Q -> (t < pow2 1024)%Q ->
  float_gt (float_sub x y) t = Qgtb (round_double (x - y)) t.
Proof.
  intros Ht0 Ht. unfold float_sub.
  destruct (Qle_bool (pow2 1024) (Qabs (round_double (x - y)))) eqn:Hbig;
    [|reflexivity].
  apply Qle_bool_iff in Hbig. simpl.
  destruct (Qgtb 0 (round_double (x - y))) eqn:Hneg.
  - apply Qgtb_true in Hneg. simpl. symmetry.
    apply Bool.not_true_iff_false. rewrite Qgtb_true. lra.
  - simpl. symmetry. apply Qgtb_true.
    assert (Hnn : (0 <= round_double (x - y))%Q).
    { apply Qnot_lt_le. intros H. apply Qgtb_true in H. congruence. }
    rewrite (Qabs_pos _ Hnn) in Hbig. lra.
Qed.

Lemma timeout_representable self : representable (heartbeat_timeout self).
Proof. repeat split; vm_compute; congruence. Qed.

(** A difference that does not exceed a representable bound before
    rounding does not exceed it after. *)
Lemma exact_le_not_exceeded timeout x y :
  representable timeout -> (x - y <= timeout)%Q ->
  float_gt (float_sub x y) timeout = false.
Proof.
  intros Hrep Hle. pose proof Hrep as (Ht0 & Ht & _).
  rewrite float_gt_sub by assumption. apply Qgtb_false.
  by apply round_double_le_representable.
Qed.

(** Once exceeded, always exceeded, as long as the clock does not go
    back. *)
Lemma exceeded_later timeout x x' y :
  representable timeout -> (x <= x')%Q ->
  float_gt (float_sub x y) timeout = true ->
  float_gt (float_sub x' y) timeout = true.
Proof.
  intros (Ht0 & Ht & _) Hx. rewrite !float_gt_sub by assumption.
  rewrite !Qgtb_true. apply round_double_mono_gt; [assumption | lra].
Qed.

(** ** The per-node check *)

Lemma check_node_late timeout now n :
  float_gt (float_sub now (last_heartbeat n)) timeout = true ->
  check_node timeout now n = set_status (advance (status n)) n.
Proof.
  intros H. unfold check_node. rewrite H.
  destruct n as [i c a p [] l k]; reflexivity.
Qed.

Lemma check_node_on_time timeout now n :
  float_gt (float_sub now (last_heartbeat n)) timeout = false ->
  check_node timeout now n = n.
Proof. intros H. unfold check_node. now rewrite H. Qed.

Lemma check_node_timely timeout now n :
  representable timeout ->
  (now - last_heartbeat n <= timeout)%Q ->
  check_node timeout now n = n.
Proof.
  intros Hrep H. apply check_node_on_time. by apply exact_le_not_exceeded.
Qed.

Lemma check_node_cases timeout now n :
  check_node timeout now n = n \/
  check_node timeout now n = set_status (advance (status n)) n.
Proof.
  destruct (float_gt (float_sub now (last_heartbeat n)) timeout) eqn:H.
  - right. now apply check_node_late.
  - left. now apply check_node_on_time.
Qed.

Lemma set_status_same n : set_status (status n) n = n.
Proof. now destruct n. Qed.

(** ** The scan visits every record exactly once *)

Section FoldAlter.
Context (f : Node -> Node).

Lemma foldl_alter_lookup (l : list (string * Node)) (m : gmap string Node) k :
  NoDup l.*1 ->
  foldl (fun acc item => alter f (fst item) acc) m l !! k
  = if decide (k ∈ l.*1) then f <$> m !! k else m !! k.
Proof.
  revert m. induction l as [|[k0 v] l IH]; intros m Hnd; simpl.
  - reflexivity.
  - apply NoDup_cons in Hnd as [Hk0 Hnd]. rewrite IH by done.
    destruct (decide (k = k0)) as [->|Hne].
    + rewrite decide_False by done. rewrite decide_True by left.
      by rewrite lookup_alter_eq.
    + rewrite lookup_alter_ne by done.
      destruct (decide (k ∈ l.*1)) as [Hin|Hin].
      * rewrite decide_True by (by right). done.
      * rewrite decide_False; [done|]. by intros [?|?]%elem_of_cons.
Qed.

Lemma foldl_alter_snapshot (m : gmap string Node) :
  foldl (fun acc item => alter f (fst item) acc) m (map_to_list m) = f <$> m.
Proof.
  apply map_eq. intros k.
  rewrite foldl_alter_lookup by apply NoDup_fst_map_to_list.
  rewrite lookup_fmap. case_decide as Hin; [done|].
  destruct (m !! k) as [v|] eqn:Hk; [|done].
  exfalso. apply Hin. apply list_elem_of_fmap. exists (k, v).
  split; [done|]. by apply elem_of_map_to_list.
Qed.
End FoldAlter.

Lemma monitor_scan_nodes self now :
  nodes (monitor_scan self now)
  = check_node (heartbeat_timeout self) now <$> nodes self.
Proof. unfold monitor_scan. simpl. apply foldl_alter_snapshot. Qed.

Lemma monitor_scan_timeout self now :
  heartbeat_timeout (monitor_scan self now) = heartbeat_timeout self.
Proof. reflexivity. Qed.

(** The monitor thread alone: its loop is a run of scans. *)
Lemma monitor_node_health_run self readings :
  monitor_node_health self readings = run self (Scan <$> readings).
Proof.
  revert self. induction readings as [|t ts IH]; intros self; [done|].
  simpl. by rewrite IH.
Qed.

Lemma monitor_scan_lookup self now id :
  nodes (monitor_scan self now) !! id
  = check_node (heartbeat_timeout self) now <$> nodes self !! id.
Proof. by rewrite monitor_scan_nodes, lookup_fmap. Qed.

(** ** The transition table of the scan *)

Example one_node_lookup : nodes one_node !! n1 = Some n1_record.
Proof. vm_compute. reflexivity. Qed.

(** C1: one scan tick applies to every record of the registry, with
    [elapsed = current_time - last_heartbeat] as the machine computes it,
    exactly the table Ready/not exceeded -> Ready, Ready/exceeded ->
    NotReady, NotReady/exceeded -> Failed, NotReady/not exceeded ->
    NotReady, Failed -> Failed; no other field of the record changes, no
    record appears or disappears, and a status moves by at most one
    step. *)
Theorem C1_scan_transition_table (self : APIServer) (now : Q) :
  (forall id, nodes self !! id = None ->
              nodes (monitor_scan self now) !! id = None) /\
  (forall id n, nodes self !! id = Some n ->
     exists n',
       nodes (monitor_scan self now) !! id = Some n' /\
       n' = set_status (status n') n /\
       (status n = Ready ->
        float_gt (elapsed now n) (heartbeat_timeout self) = false ->
        status n' = Ready) /\
       (status n = Ready ->
        float_gt (elapsed now n) (heartbeat_timeout self) = true ->
        status n' = NotReady) /\
       (status n = NotReady ->
        float_gt (elapsed now n) (heartbeat_timeout self) = true ->
        status n' = Failed) /\
       (status n = NotReady ->
        float_gt (elapsed now n) (heartbeat_timeout self) = false ->
        status n' = NotReady) /\
       (status n = Failed -> status n' = Failed) /\
       (rank (status n) <= rank (status n') <= S (rank (status n)))%nat).
Proof.
  split.
  - intros id Hid. by rewrite monitor_scan_lookup, Hid.
  - intros id n Hid. eexists. split.
    { rewrite monitor_scan_lookup, Hid. reflexivity. }
    unfold elapsed.
    destruct (float_gt (float_sub now (last_heartbeat n))
                (heartbeat_timeout self)) eqn:Hlate.
    + rewrite (check_node_late _ _ _ Hlate). simpl.
      repeat split;
        try (intros Hs; rewrite Hs; simpl; intros;
             first [reflexivity | discriminate]);
        destruct (status n); simpl; lia.
    + rewrite (check_node_on_time _ _ _ Hlate).
      repeat split;
        try (intros Hs; rewrite Hs; simpl; intros;
             first [reflexivity | discriminate]);
        try lia.
      by rewrite set_status_same.
Qed.

Lemma C1_scan_transition_table_witness :
  nodes one_node !! n1 = Some n1_record /\
  exists n', nodes (monitor_scan one_node (31 # 1)) !! n1 = Some n' /\
             status n' = NotReady.
Proof.
  split; [exact one_node_lookup|].
  destruct (C1_scan_transition_table one_node (31 # 1)) as [_ Htable].
  destruct (Htable n1 n1_record one_node_lookup)
    as (n' & Hn' & _ & _ & Hlate & _).
  exists n'. split; [exact Hn'|].
  apply Hlate; [reflexivity | vm_compute; reflexivity].
Defined.

(** The doubles nearest to 0.1 and to 30.1 differ by more than 30, and
    their difference rounds to 30: a node last heard of at the first is
    not past its timeout at the second. *)
Example scan_subtracts_as_the_machine :
  let t0 := (3602879701896397 # 36028797018963968)%Q in
  let t1 := (4236198399495373 # 140737488355328)%Q in
  (30 # 1 < t1 - t0)%Q /\
  check_node (30 # 1) t1 (mkNode n1 4 4 [] Ready t0 JNull)
  = mkNode n1 4 4 [] Ready t0 JNull.
Proof. split; vm_compute; reflexivity. Qed.

(** ** Heartbeats *)

Lemma update_node_heartbeat_known self id now n :
  nodes self !! id = Some n ->
  update_node_heartbeat self id now
  = (true, set_nodes (<[id := set_last_heartbeat now n]> (nodes self)) self).
Proof. intros H. unfold update_node_heartbeat. now rewrite H. Qed.

Lemma update_node_heartbeat_unknown self id now :
  nodes self !! id = None ->
  update_node_heartbeat self id now = (false, self).
Proof. intros H. unfold update_node_heartbeat. now rewrite H. Qed.

(** C3: a heartbeat for a registered id stores the clock reading in that
    record's [last_heartbeat], keeps every other field of the record (the
    status among them), every other record and the timeout, and is answered
    with 200 and the body [{"status": "Heartbeat received"}]; a heartbeat
    for an id that is not registered is answered with 404 and the body
    [{"error": "Node not found"}] and leaves the server as it was. *)
Theorem C3_heartbeat (self : APIServer) (id : string) (now : Q) :
  (forall n, nodes self !! id = Some n ->
     exists self' n',
       update_node_heartbeat self id now = (true, self') /\
       update_heartbeat self id now
       = (Resp (JObj [("status"%string, JStr "Heartbeat received")]) 200, self') /\
       nodes self' !! id = Some n' /\
       last_heartbeat n' = now /\
       status n' = status n /\
       node_id n' = node_id n /\
       cpu_cores n' = cpu_cores n /\
       available_cores n' = available_cores n /\
       pods n' = pods n /\
       container_id n' = container_id n /\
       (forall j, j <> id -> nodes self' !! j = nodes self !! j) /\
       heartbeat_timeout self' = heartbeat_timeout self) /\
  (nodes self !! id = None ->
     update_node_heartbeat self id now = (false, self) /\
     update_heartbeat self id now
     = (Resp (JObj [("error"%string, JStr "Node not found")]) 404, self)).
Proof.
  split.
  - intros n Hn.
    exists (set_nodes (<[id := set_last_heartbeat now n]> (nodes self)) self),
           (set_last_heartbeat now n).
    unfold update_heartbeat.
    rewrite (update_node_heartbeat_known _ _ _ _ Hn). simpl.
    repeat split.
    + apply lookup_insert_eq.
    + intros j Hj. by apply lookup_insert_ne.
  - intros Hn. unfold update_heartbeat.
    rewrite (update_node_heartbeat_unknown _ _ _ Hn). done.
Qed.

Lemma C3_heartbeat_witness :
  (nodes one_node !! n1 = Some n1_record /\
   exists self',
     update_heartbeat one_node n1 (12 # 1)
     = (Resp (JObj [("status"%string, JStr "Heartbeat received")]) 200, self') /\
     (last_heartbeat <$> nodes self' !! n1) = Some (12 # 1)%Q) /\
  (nodes one_node !! n2 = None /\
   update_heartbeat one_node n2 (12 # 1)
   = (Resp (JObj [("error"%string, JStr "Node not found")]) 404, one_node)).
Proof.
  destruct (C3_heartbeat one_node n1 (12 # 1)) as [Hknown _].
  destruct (C3_heartbeat one_node n2 (12 # 1)) as [_ Hunknown].
  split.
  - split; [exact one_node_lookup|].
    destruct (Hknown n1_record one_node_lookup)
      as (self' & n' & _ & Hresp & Hn' & Hlast & _).
    exists self'. split; [exact Hresp|]. rewrite Hn'. simpl. now rewrite Hlast.
  - assert (Hnone : nodes one_node !! n2 = None) by (vm_compute; reflexivity).
    split; [exact Hnone|]. exact (proj2 (Hunknown Hnone)).
Defined.

(** ** The handler [add_node] against [register_node] *)

Lemma add_node_accepted self data uuid now :
  accepted data = true ->
  exists cores,
    0 < cores /\
    bind (py_getitem data "cpu_cores") int = inr cores /\
    add_node self data uuid now
    = (Resp (JObj [ ("message", JStr "Node added successfully");
                    ("node_id", JStr uuid);
                    ("cpu_cores", JInt cores) ]%string) 201,
       snd (register_node self cores (py_get data "container_id") uuid now)).
Proof.
  unfold accepted, add_node. intros [Ht H]%andb_true_iff. rewrite Ht. simpl.
  destruct (py_contains "cpu_cores" data) as [e|[]]; try discriminate.
  destruct (bind (py_getitem data "cpu_cores") int) as [e|cores];
    try discriminate.
  apply negb_true_iff in H. rewrite H. exists cores.
  split; [lia|]. split; reflexivity.
Qed.

Lemma add_node_rejected self data uuid now :
  accepted data = false ->
  snd (add_node self data uuid now) = self /\
  forall body, fst (add_node self data uuid now) <> Resp body 201.
Proof.
  unfold accepted, add_node. intros H.
  destruct (truthy data); simpl in *; [|done].
  destruct (py_contains "cpu_cores" data) as [e|[]]; try done.
  destruct (bind (py_getitem data "cpu_cores") int) as [[]|cores]; try done.
  apply negb_false_iff in H. rewrite H. done.
Qed.

(** ** What one operation does to the registry *)

Lemma step_timeout self op :
  heartbeat_timeout (step self op) = heartbeat_timeout self.
Proof. reflexivity. Qed.

Lemma run_timeout self ops :
  heartbeat_timeout (run self ops) = heartbeat_timeout self.
Proof. reflexivity. Qed.

Lemma step_registration self op uuid now :
  registration op = Some (uuid, now) ->
  exists cpu cid, step self op = snd (register_node self cpu cid uuid now).
Proof.
  destruct op as [c k u t| | |i t|t|d u t|i t]; simpl; try discriminate.
  - intros [= -> ->]. by exists c, k.
  - destruct (accepted d) eqn:Ha; [|discriminate]. intros [= -> ->].
    destruct (add_node_accepted self d uuid now Ha) as (c & _ & _ & ->).
    by eexists _, _.
Qed.

Lemma update_node_heartbeat_lookup self i now id :
  nodes (snd (update_node_heartbeat self i now)) !! id
  = (fun n => if String.eqb i id then set_last_heartbeat now n else n)
      <$> nodes self !! id.
Proof.
  unfold update_node_heartbeat.
  destruct (String.eqb_spec i id) as [->|Hne].
  - destruct (nodes self !! id) as [n|] eqn:Hn; simpl.
    + by rewrite lookup_insert_eq.
    + by rewrite Hn.
  - destruct (nodes self !! i) as [n|] eqn:Hn; simpl.
    + rewrite lookup_insert_ne by done. by destruct (nodes self !! id).
    + by destruct (nodes self !! id).
Qed.

Lemma step_lookup self op id :
  id ∉ draws_of op ->
  nodes (step self op) !! id
  = (fun n => node_step (heartbeat_timeout self) id n op) <$> nodes self !! id.
Proof.
  unfold draws_of.
  destruct op as [c k u t| | |i t|t|d u t|i t]; simpl; intros Hid.
  - rewrite lookup_insert_ne by set_solver. by destruct (nodes self !! id).
  - by destruct (nodes self !! id).
  - by destruct (nodes self !! id).
  - apply update_node_heartbeat_lookup.
  - apply monitor_scan_lookup.
  - destruct (accepted d) eqn:Ha.
    + destruct (add_node_accepted self d u t Ha) as (c & _ & _ & ->). simpl.
      rewrite lookup_insert_ne by set_solver. by destruct (nodes self !! id).
    + destruct (add_node_rejected self d u t Ha) as [-> _].
      by destruct (nodes self !! id).
  - unfold update_heartbeat.
    rewrite <- (update_node_heartbeat_lookup self i t id).
    by destruct (update_node_heartbeat self i t) as [[] ?].
Qed.

Lemma step_lookup_drawn self op uuid now :
  registration op = Some (uuid, now) ->
  exists n, nodes (step self op) !! uuid = Some n /\
            node_id n = uuid /\ status n = Ready /\ last_heartbeat n = now.
Proof.
  intros (c & k & ->)%(step_registration self). simpl.
  eexists. split; [apply lookup_insert_eq|]. done.
Qed.

Lemma draws_cons op ops : draws (op :: ops) = draws_of op ++ draws ops.
Proof. reflexivity. Qed.

Lemma draws_app ops1 ops2 : draws (ops1 ++ ops2) = draws ops1 ++ draws ops2.
Proof. unfold draws. apply bind_app. Qed.

Lemma run_app self ops1 ops2 :
  run self (ops1 ++ ops2) = run (run self ops1) ops2.
Proof. apply foldl_app. Qed.

Lemma run_snoc self ops op : run self (ops ++ [op]) = step (run self ops) op.
Proof. by rewrite run_app. Qed.

(** A record whose id is not drawn again evolves on its own. *)
Lemma run_lookup self ops id :
  id ∉ draws ops ->
  nodes (run self ops) !! id
  = (fun n => node_run (heartbeat_timeout self) id n ops) <$> nodes self !! id.
Proof.
  revert self. induction ops as [|op ops IH]; intros self Hid; simpl.
  - by destruct (nodes self !! id).
  - rewrite draws_cons in Hid. apply not_elem_of_app in Hid as [Hop Hops].
    unfold run in IH. rewrite IH by done.
    rewrite step_lookup, step_timeout by done.
    by destruct (nodes self !! id).
Qed.

(** The registry holds exactly the ids it started with and the ids drawn. *)
Lemma step_lookup_None self op id :
  nodes (step self op) !! id = None
  <-> nodes self !! id = None /\ id ∉ draws_of op.
Proof.
  destruct (decide (id ∈ draws_of op)) as [Hin|Hout].
  - split; [|tauto]. intros Hnone. exfalso.
    unfold draws_of in Hin.
    destruct (registration op) as [[u t]|] eqn:Hreg; [|by apply elem_of_nil in Hin].
    apply list_elem_of_singleton in Hin as ->.
    destruct (step_lookup_drawn self op u t Hreg) as (n & Hn & _). congruence.
  - rewrite step_lookup by done. rewrite fmap_None. tauto.
Qed.

Lemma run_lookup_None self ops id :
  nodes (run self ops) !! id = None
  <-> nodes self !! id = None /\ id ∉ draws ops.
Proof.
  revert self. induction ops as [|op ops IH]; intros self.
  - simpl. split; [|tauto]. intros H. split; [done|apply not_elem_of_nil].
  - change (run self (op :: ops)) with (run (step self op) ops).
    rewrite IH, step_lookup_None, draws_cons, not_elem_of_app. tauto.
Qed.

(** ** Registration *)

Lemma returned_id_draws self op :
  option_list (returned_id self op) = draws_of op.
Proof.
  unfold draws_of.
  destruct op as [c k u t| | |i t|t|d u t|i t]; simpl; try reflexivity.
  destruct (accepted d) eqn:Ha.
  - destruct (add_node_accepted self d u t Ha) as (c & _ & _ & ->). done.
  - destruct (add_node_rejected self d u t Ha) as [_ Hne].
    destruct (fst (add_node self d u t)) as [body code|e]; [|done].
    destruct (Z.eqb_spec code 201) as [->|Hc]; [|done].
    by destruct (Hne body).
Qed.

Lemma returned_ids_draws self ops : returned_ids self ops = draws ops.
Proof.
  revert self. induction ops as [|op ops IH]; intros self; [done|].
  simpl. by rewrite IH, returned_id_draws.
Qed.

Lemma initial_lookup id : nodes APIServer_init !! id = None.
Proof. apply lookup_empty. Qed.

Lemma lookup_iff_drawn ops id :
  is_Some (nodes (run APIServer_init ops) !! id) <-> id ∈ draws ops.
Proof.
  rewrite <- not_eq_None_Some, run_lookup_None.
  split.
  - intros H. destruct (decide (id ∈ draws ops)) as [|Hout]; [done|].
    destruct H. split; [apply initial_lookup | done].
  - intros Hin [_ Hout]. by apply Hout.
Qed.

Lemma register_node_call_returns self cpu cid uuid now :
  Z.abs cpu < 10 ^ max_str_digits ->
  register_node_call self cpu cid uuid now
  = (inr (fst (register_node self cpu cid uuid now)),
     snd (register_node self cpu cid uuid now)).
Proof.
  intros H. unfold register_node_call, register_node. cbv beta iota zeta.
  by rewrite (proj2 (Z.leb_gt _ _) H).
Qed.

(** C4, as stated, fails twice.  The call can fail on a positive integer:
    after the insert the logging line formats [cpu_cores], and an integer
    of 4301 digits makes it raise, the record being in the registry
    already.  And the id is not fresh by construction: it is the value
    uuid4 returned, and nothing checks it against the registry; when uuid4
    returns a value it has returned before, the id handed back is one that
    was handed back before, and the earlier record is replaced. *)
Lemma C4_register_fails_or_repeats :
  (0 < 10 ^ 4300 /\
   exists self',
     register_node_call APIServer_init (10 ^ 4300) JNull n1 (0 # 1)
     = (inl ValueError, self') /\
     is_Some (get_node self' n1)) /\
  exists n self',
    register_node_call (run APIServer_init [Register 4 JNull n1 (0 # 1)])
      8 (JStr "c0ffee") n1 (3 # 1)
    = (inr n, self') /\
    node_id n ∈ returned_ids APIServer_init [Register 4 JNull n1 (0 # 1)] /\
    get_node self' n1 = Some (mkNode n1 8 8 [] Ready (3 # 1) (JStr "c0ffee")) /\
    length (list_nodes self') = 1%nat.
Proof.
  split.
  - split; [by vm_compute|].
    exists (snd (register_node APIServer_init (10 ^ 4300) JNull n1 (0 # 1))).
    split.
    + unfold register_node_call, register_node. cbv beta iota zeta.
      replace (10 ^ max_str_digits <=? Z.abs (10 ^ 4300)) with true
        by (by vm_compute).
      reflexivity.
    + unfold get_node, register_node. cbn [snd set_nodes nodes].
      cbn [node_id set_container_id Node_init].
      rewrite lookup_insert_eq. by eexists.
  - eexists _, _. split.
    + apply register_node_call_returns. by vm_compute.
    + split; [|split].
      * apply (bool_decide_unpack _). by vm_compute.
      * by vm_compute.
      * by vm_compute.
Qed.

(** C4, amended: registering a positive core count of at most 4300 digits
    returns a node.  Its id is the value uuid4 returned for the call; the
    record is Ready, has all its cores available, carries the clock
    reading, no pods and the given executor reference; [get_node] and
    [list_nodes] on the resulting server show it, and every record under
    another id is as before.  When that id was not handed back earlier in
    the run, the registry had no record under it and the listing grows by
    one; when it was, the record that was under it is replaced and the
    listing keeps its length. *)
Theorem C4_register_returns_the_draw (ops : list Op) (totalCores : Z)
    (executorRef : json) (uuid : string) (now : Q) :
  0 < totalCores ->
  totalCores < 10 ^ max_str_digits ->
  exists n self',
    register_node_call (run APIServer_init ops) totalCores executorRef uuid now
    = (inr n, self') /\
    node_id n = uuid /\
    status n = Ready /\
    cpu_cores n = totalCores /\
    available_cores n = totalCores /\
    last_heartbeat n = now /\
    pods n = [] /\
    container_id n = executorRef /\
    get_node self' (node_id n) = Some n /\
    to_dict n ∈ list_nodes self' /\
    (forall j, j <> node_id n ->
               get_node self' j = get_node (run APIServer_init ops) j) /\
    ((node_id n ∉ returned_ids APIServer_init ops) ->
     get_node (run APIServer_init ops) (node_id n) = None /\
     length (list_nodes self')
     = S (length (list_nodes (run APIServer_init ops)))) /\
    (node_id n ∈ returned_ids APIServer_init ops ->
     is_Some (get_node (run APIServer_init ops) (node_id n)) /\
     length (list_nodes self') = length (list_nodes (run APIServer_init ops))).
Proof.
  intros Hpos Hsmall.
  rewrite register_node_call_returns by (rewrite Z.abs_eq; lia).
  eexists _, _. split; [reflexivity|]. simpl.
  rewrite returned_ids_draws. unfold get_node, list_nodes. simpl.
  repeat split; try done.
  - apply lookup_insert_eq.
  - apply list_elem_of_fmap. eexists (uuid, _). split; [reflexivity|].
    apply elem_of_map_to_list. apply lookup_insert_eq.
  - intros j Hj. by apply lookup_insert_ne.
  - apply run_lookup_None. split; [apply initial_lookup | done].
  - rewrite !length_fmap, !length_map_to_list.
    apply map_size_insert_None.
    apply run_lookup_None. split; [apply initial_lookup | done].
  - by apply lookup_iff_drawn.
  - rewrite !length_fmap, !length_map_to_list.
    assert (Hsome : is_Some (nodes (run APIServer_init ops) !! uuid))
      by (by apply lookup_iff_drawn).
    destruct Hsome as [old Hold]. by apply map_size_insert_Some.
Qed.

Lemma C4_register_returns_the_draw_witness :
  0 < 8 /\
  8 < 10 ^ max_str_digits /\
  exists n self',
    register_node_call one_node 8 (JStr "c0ffee") n2 (3 # 1) = (inr n, self') /\
    node_id n = n2 /\
    get_node self' (node_id n) = Some n /\
    length (list_nodes self') = 2%nat.
Proof.
  assert (Hpos : 0 < 8) by lia.
  assert (Hsmall : 8 < 10 ^ max_str_digits) by (by vm_compute).
  split; [exact Hpos|]. split; [exact Hsmall|].
  destruct (C4_register_returns_the_draw [Register 4 JNull n1 (0 # 1)] 8
              (JStr "c0ffee") n2 (3 # 1) Hpos Hsmall)
    as (n & self' & Hreg & Hid & _ & _ & _ & _ & _ & _ & Hget & _ & _ & Hnew & _).
  exists n, self'. repeat split; try assumption.
  destruct Hnew as [_ ->]; [|reflexivity].
  rewrite Hid. apply (bool_decide_unpack _). by vm_compute.
Defined.

(** ** One record along a run *)

Lemma node_step_status timeout id n op :
  status (node_step timeout id n op) = status n \/
  (is_scan op = true /\
   status (node_step timeout id n op) = advance (status n)).
Proof.
  destruct op as [c k u t| | |i t|t|d u t|i t]; simpl; auto.
  - destruct (String.eqb i id); auto.
  - destruct (check_node_cases timeout t n) as [-> | ->]; auto.
  - destruct (String.eqb i id); auto.
Qed.

Lemma rank_advance s : (rank s <= rank (advance s))%nat.
Proof. destruct s; simpl; lia. Qed.

Lemma node_run_snoc timeout id n ops op :
  node_run timeout id n (ops ++ [op])
  = node_step timeout id (node_run timeout id n ops) op.
Proof. unfold node_run. by rewrite foldl_app. Qed.

Lemma node_run_rank timeout id n ops :
  (rank (status n) <= rank (status (node_run timeout id n ops)))%nat.
Proof.
  induction ops as [|op ops IH] using rev_ind; [done|].
  rewrite node_run_snoc.
  destruct (node_step_status timeout id (node_run timeout id n ops) op)
    as [-> | [_ ->]]; [done|].
  etrans; [exact IH | apply rank_advance].
Qed.

Lemma node_run_no_scan timeout id n ops :
  forallb (fun op => negb (is_scan op)) ops = true ->
  status (node_run timeout id n ops) = status n.
Proof.
  induction ops as [|op ops IH] using rev_ind; [done|].
  rewrite forallb_app. simpl. rewrite andb_true_r.
  intros [Hops Hop]%andb_true_iff. rewrite node_run_snoc.
  destruct (node_step_status timeout id (node_run timeout id n ops) op)
    as [-> | [Hscan _]]; [auto|].
  rewrite Hscan in Hop. discriminate.
Qed.

(** Without a heartbeat and without a scan that finds the timeout exceeded
    the record does not move. *)
Lemma node_run_quiet timeout id n ops :
  forallb (fun op => negb (beats id op)) ops = true ->
  forallb (fun op => negb (scan_exceeds timeout (last_heartbeat n) op)) ops
  = true ->
  node_run timeout id n ops = n.
Proof.
  induction ops as [|op ops IH]; [done|]. simpl.
  intros [Hop Hops]%andb_true_iff [Hsc Hscs]%andb_true_iff.
  assert (Hstep : node_step timeout id n op = n).
  { destruct op as [c k u t| | |i t|t|d u t|i t]; simpl in *; try done.
    - apply negb_true_iff in Hop. by rewrite Hop.
    - apply check_node_on_time. by apply negb_true_iff.
    - apply negb_true_iff in Hop. by rewrite Hop. }
  unfold node_run in *. simpl. rewrite Hstep. by apply IH.
Qed.

Lemma no_scan_none_exceeds timeout t0 ops :
  forallb (fun op => negb (is_scan op)) ops = true ->
  forallb (fun op => negb (scan_exceeds timeout t0 op)) ops = true.
Proof.
  induction ops as [|op ops IH]; [done|]. simpl.
  intros [Hop Hops]%andb_true_iff. rewrite IH by done.
  by destruct op.
Qed.

(** ** Statuses only move forward *)

(** C6: along every run from the initial server in which uuid4 never
    repeats a value, a record that is in the registry stays in it, its
    status never moves back along Ready, NotReady, Failed, one operation
    moves it by at most one step, and operations other than scans
    (Register, Get, List, Heartbeat and the HTTP requests) leave it as it
    is. *)
Theorem C6_status_only_forward (ops1 ops2 : list Op) (id : string) (n : Node) :
  NoDup (draws (ops1 ++ ops2)) ->
  nodes (run APIServer_init ops1) !! id = Some n ->
  exists n',
    nodes (run APIServer_init (ops1 ++ ops2)) !! id = Some n' /\
    (rank (status n) <= rank (status n'))%nat /\
    (forallb (fun op => negb (is_scan op)) ops2 = true ->
     status n' = status n) /\
    (forall op, ops2 = [op] ->
                status n' = status n \/ status n' = advance (status n)).
Proof.
  intros Hnd Hn. rewrite draws_app in Hnd.
  apply NoDup_app in Hnd as (_ & Hfresh & _).
  assert (Hdrawn : id ∈ draws ops1).
  { destruct (decide (id ∈ draws ops1)) as [|Hout]; [done|]. exfalso.
    assert (nodes (run APIServer_init ops1) !! id = None); [|congruence].
    apply run_lookup_None. split; [apply initial_lookup | done]. }
  rewrite run_app, run_lookup by auto. rewrite Hn. simpl.
  eexists. split; [reflexivity|]. split; [apply node_run_rank|].
  split; [apply node_run_no_scan|].
  intros op ->. unfold node_run. simpl.
  destruct (node_step_status
              (heartbeat_timeout (run APIServer_init ops1)) id n op)
    as [-> | [_ ->]]; auto.
Qed.

Lemma C6_status_only_forward_witness :
  NoDup (draws (silent_run ++ revived_run)) /\
  nodes (run APIServer_init silent_run) !! n1
  = Some (set_status NotReady n1_record) /\
  exists n',
    nodes (run APIServer_init (silent_run ++ revived_run)) !! n1 = Some n' /\
    (1 <= rank (status n'))%nat.
Proof.
  assert (Hnd : NoDup (draws (silent_run ++ revived_run))).
  { apply (bool_decide_unpack _). vm_compute. exact I. }
  assert (Hn : nodes (run APIServer_init silent_run) !! n1
               = Some (set_status NotReady n1_record)).
  { vm_compute. reflexivity. }
  split; [exact Hnd|]. split; [exact Hn|].
  destruct (C6_status_only_forward silent_run revived_run n1 _ Hnd Hn)
    as (n' & Hn' & Hrank & _).
  exists n'. split; [exact Hn' | exact Hrank].
Defined.

(** ** A heartbeating NotReady node *)

Lemma timely_cons self id op ops :
  timely self id (op :: ops)
  = match nodes self !! id with
    | Some n => scan_within (heartbeat_timeout self) (last_heartbeat n) op
    | None => true
    end && timely (step self op) id ops.
Proof. reflexivity. Qed.

Lemma node_step_within timeout id n op :
  representable timeout ->
  scan_within timeout (last_heartbeat n) op = true ->
  status (node_step timeout id n op) = status n.
Proof.
  intros Hrep.
  destruct op as [c k u t| | |i t|t|d u t|i t]; simpl; try done.
  - by destruct (String.eqb i id).
  - intros H%Qle_bool_iff. by rewrite check_node_timely.
  - by destruct (String.eqb i id).
Qed.

(** C8: a NotReady node that every later scan finds with
    [elapsed <= timeout], because a heartbeat refreshed it in time, is still
    in the registry and still NotReady after any number of operations: the
    scans do not fail it and nothing returns it to Ready. *)
Theorem C8_heartbeating_node_stays_NotReady
    (self : APIServer) (id : string) (n : Node) (ops : list Op) :
  nodes self !! id = Some n ->
  status n = NotReady ->
  id ∉ draws ops ->
  timely self id ops = true ->
  exists n', nodes (run self ops) !! id = Some n' /\ status n' = NotReady.
Proof.
  revert self n. induction ops as [|op ops IH]; intros self n Hn Hs Hid Ht.
  - exists n. by split.
  - rewrite draws_cons in Hid. apply not_elem_of_app in Hid as [Hop Hops].
    rewrite timely_cons, Hn in Ht. apply andb_true_iff in Ht as [Hw Ht].
    change (run self (op :: ops)) with (run (step self op) ops).
    apply (IH (step self op) (node_step (heartbeat_timeout self) id n op));
      try done.
    + by rewrite step_lookup, Hn.
    + rewrite node_step_within; [done | apply timeout_representable | done].
Qed.

Lemma C8_heartbeating_node_stays_NotReady_witness :
  nodes (run APIServer_init silent_run) !! n1
  = Some (set_status NotReady n1_record) /\
  status (set_status NotReady n1_record) = NotReady /\
  (n1 ∉ draws revived_run) /\
  timely (run APIServer_init silent_run) n1 revived_run = true /\
  exists n',
    nodes (run (run APIServer_init silent_run) revived_run) !! n1 = Some n' /\
    status n' = NotReady.
Proof.
  assert (Hn : nodes (run APIServer_init silent_run) !! n1
               = Some (set_status NotReady n1_record)).
  { vm_compute. reflexivity. }
  assert (Hid : n1 ∉ draws revived_run).
  { apply (bool_decide_unpack _). vm_compute. exact I. }
  assert (Ht : timely (run APIServer_init silent_run) n1 revived_run = true).
  { vm_compute. reflexivity. }
  repeat split; try assumption.
  exact (C8_heartbeating_node_stays_NotReady _ n1 _ revived_run
           Hn eq_refl Hid Ht).
Defined.

(** ** A node that falls silent *)

Lemma registered_lookup ops0 op u t0 :
  registration op = Some (u, t0) ->
  exists n0,
    nodes (run APIServer_init (ops0 ++ [op])) !! u = Some n0 /\
    status n0 = Ready /\ last_heartbeat n0 = t0.
Proof.
  intros Hreg. rewrite run_app. simpl.
  destruct (step_lookup_drawn (run APIServer_init ops0) op u t0 Hreg)
    as (n0 & Hn0 & _ & Hs & Hl).
  by exists n0.
Qed.

Lemma initial_timeout ops :
  heartbeat_timeout (run APIServer_init ops) = (30 # 1)%Q.
Proof. reflexivity. Qed.

(** C2: a node registered at [t0] that never heartbeats again is Ready as
    long as no scan has found [elapsed > 30], elapsed being the difference
    the scan computes; the first scan that finds it leaves the node
    NotReady, the node stays NotReady until the next scan, and that next
    scan, whenever the clock has not gone back, leaves it Failed: both
    transitions are gated by the one 30 second timeout.  [ops0] is what
    happened before the registration, [ops1] what happened between it and
    the first scan past the timeout, [ops2] what happened between the two
    scans. *)
Theorem C2_silent_node_timeline (ops0 : list Op) (reg : Op) (u : string)
    (t0 : Q) (ops1 : list Op) (ta : Q) (ops2 : list Op) (tb : Q) :
  registration reg = Some (u, t0) ->
  NoDup (draws (ops0 ++ [reg] ++ ops1 ++ [Scan ta] ++ ops2 ++ [Scan tb])) ->
  forallb (fun op => negb (beats u op)) (ops1 ++ ops2) = true ->
  forallb (fun op => negb (scan_exceeds (30 # 1) t0 op)) ops1 = true ->
  forallb (fun op => negb (is_scan op)) ops2 = true ->
  float_gt (float_sub ta t0) (30 # 1) = true ->
  (ta <= tb)%Q ->
  (forall p q, ops1 = p ++ q ->
     status_of (run APIServer_init (ops0 ++ [reg] ++ p)) u = Some Ready) /\
  (forall p q, ops2 = p ++ q ->
     status_of (run APIServer_init (ops0 ++ [reg] ++ ops1 ++ [Scan ta] ++ p)) u
     = Some NotReady) /\
  status_of
    (run APIServer_init (ops0 ++ [reg] ++ ops1 ++ [Scan ta] ++ ops2 ++ [Scan tb])) u
  = Some Failed.
Proof.
  intros Hreg Hnd Hquiet Hearly Hnoscan Hta Htb.
  destruct (registered_lookup ops0 reg u t0 Hreg) as (n0 & Hn0 & Hs0 & Hl0).
  (* [u] is drawn by [reg] and by nothing after it *)
  assert (Hlater : u ∉ draws (ops1 ++ [Scan ta] ++ ops2 ++ [Scan tb])).
  { rewrite !draws_app in Hnd. apply NoDup_app in Hnd as (_ & _ & Hnd).
    apply NoDup_app in Hnd as (_ & Hnd & _).
    rewrite <- !draws_app in Hnd. apply Hnd.
    unfold draws. simpl. unfold draws_of. rewrite Hreg. by left. }
  rewrite !draws_app, !not_elem_of_app in Hlater.
  destruct Hlater as (Hu1 & _ & Hu2 & _).
  rewrite forallb_app in Hquiet. apply andb_true_iff in Hquiet as [Hq1 Hq2].
  set (s0 := run APIServer_init (ops0 ++ [reg])) in *.
  assert (Hto : heartbeat_timeout s0 = (30 # 1)%Q) by apply initial_timeout.
  (* the record after [ops1], after the first late scan, and after [ops2] *)
  assert (Hrun1 : forall p q, ops1 = p ++ q ->
            nodes (run s0 p) !! u = Some n0).
  { intros p q ->. rewrite draws_app, not_elem_of_app in Hu1.
    rewrite forallb_app in Hq1, Hearly.
    apply andb_true_iff in Hq1 as [Hq1 _].
    apply andb_true_iff in Hearly as [Hearly _].
    rewrite run_lookup, Hn0 by tauto. simpl.
    rewrite node_run_quiet; [done | done | by rewrite Hto, Hl0]. }
  set (na := set_status NotReady n0).
  assert (Hscan_a : nodes (run s0 (ops1 ++ [Scan ta])) !! u = Some na).
  { rewrite run_snoc. cbn [step]. rewrite monitor_scan_lookup.
    rewrite (Hrun1 ops1 [] (eq_sym (app_nil_r _))). simpl.
    rewrite run_timeout, Hto, check_node_late by (by rewrite Hl0).
    by rewrite Hs0. }
  assert (Hrun2 : forall p q, ops2 = p ++ q ->
            nodes (run s0 (ops1 ++ [Scan ta] ++ p)) !! u = Some na).
  { intros p q ->. rewrite draws_app, not_elem_of_app in Hu2.
    rewrite forallb_app in Hq2, Hnoscan.
    apply andb_true_iff in Hq2 as [Hq2 _].
    apply andb_true_iff in Hnoscan as [Hnoscan _].
    rewrite (app_assoc ops1), run_app, run_lookup, Hscan_a by tauto. simpl.
    rewrite node_run_quiet; [done | done |].
    by apply no_scan_none_exceeds. }
  unfold status_of. repeat split.
  - intros p q Hp. rewrite app_assoc, run_app. fold s0.
    rewrite (Hrun1 p q Hp). simpl. by rewrite Hs0.
  - intros p q Hp. rewrite app_assoc, run_app. fold s0.
    by rewrite (Hrun2 p q Hp).
  - rewrite app_assoc, run_app. fold s0.
    rewrite (app_assoc ops1), (app_assoc (ops1 ++ [Scan ta])), run_snoc.
    cbn [step]. rewrite monitor_scan_lookup.
    rewrite <- (app_assoc ops1), (Hrun2 ops2 [] (eq_sym (app_nil_r _))).
    simpl. rewrite run_timeout, Hto, check_node_late; [done|].
    simpl. rewrite Hl0.
    apply (exceeded_later _ ta); [apply (timeout_representable s0) | done..].
Qed.

Lemma C2_silent_node_timeline_witness :
  status_of (run APIServer_init ([] ++ [http_registration] ++ before_timeout)) n1
  = Some Ready /\
  status_of
    (run APIServer_init
       ([] ++ [http_registration] ++ before_timeout ++ [Scan (35 # 1)]
           ++ between_scans)) n1
  = Some NotReady /\
  status_of
    (run APIServer_init
       ([] ++ [http_registration] ++ before_timeout ++ [Scan (35 # 1)]
           ++ between_scans ++ [Scan (40 # 1)])) n1
  = Some Failed.
Proof.
  assert (Hreg : registration http_registration = Some (n1, 0 # 1)).
  { vm_compute. reflexivity. }
  assert (Hnd : NoDup (draws ([] ++ [http_registration] ++ before_timeout
                                 ++ [Scan (35 # 1)] ++ between_scans
                                 ++ [Scan (40 # 1)]))).
  { apply (bool_decide_unpack _). vm_compute. exact I. }
  assert (Hquiet : forallb (fun op => negb (beats n1 op))
                     (before_timeout ++ between_scans) = true).
  { vm_compute. reflexivity. }
  assert (Hearly : forallb (fun op => negb (scan_exceeds (30 # 1) (0 # 1) op))
                     before_timeout = true).
  { vm_compute. reflexivity. }
  assert (Hnoscan : forallb (fun op => negb (is_scan op)) between_scans = true).
  { vm_compute. reflexivity. }
  assert (Hta : float_gt (float_sub (35 # 1) (0 # 1)) (30 # 1) = true)
    by (vm_compute; reflexivity).
  assert (Htb : (35 # 1 <= 40 # 1)%Q) by (vm_compute; discriminate).
  destruct (C2_silent_node_timeline [] http_registration n1 (0 # 1)
              before_timeout (35 # 1) between_scans (40 # 1)
              Hreg Hnd Hquiet Hearly Hnoscan Hta Htb)
    as (Hready & Hnotready & Hfailed).
  split; [|split].
  - exact (Hready before_timeout [] (eq_sym (app_nil_r _))).
  - exact (Hnotready between_scans [] (eq_sym (app_nil_r _))).
  - exact Hfailed.
Defined.

(** ** Validation at the HTTP boundary *)

Lemma truthy_obj kv v : assoc "cpu_cores" kv = Some v -> truthy (JObj kv) = true.
Proof. by destruct kv. Qed.

(** [add_node] on a dict that has the key ["cpu_cores"]. *)
Lemma add_node_obj self kv v uuid now :
  assoc "cpu_cores" kv = Some v ->
  add_node self (JObj kv) uuid now
  = match int v with
    | inr cores =>
        if cores <=? 0 then
          (Resp (error_body "CPU cores must be positive") 400, self)
        else
          (Resp (JObj [ ("message", JStr "Node added successfully");
                        ("node_id", JStr uuid);
                        ("cpu_cores", JInt cores) ]%string) 201,
           snd (register_node self cores (py_get (JObj kv) "container_id")
                              uuid now))
    | inl ValueError => (Resp (error_body "CPU cores must be a number") 400, self)
    | inl e => (Uncaught e, self)
    end.
Proof.
  intros Hv. unfold add_node. rewrite (truthy_obj _ _ Hv).
  cbn [negb py_contains py_getitem ret]. rewrite Hv.
  rewrite bool_decide_eq_true_2 by eauto. cbn [bind ret].
  destruct (int v) as [[]|cores]; reflexivity.
Qed.

(** [add_node] on a dict without the key, and on an absent or empty body. *)
Lemma add_node_missing self kv uuid now :
  assoc "cpu_cores" kv = None ->
  add_node self (JObj kv) uuid now
  = (Resp (error_body "CPU cores specification required") 400, self).
Proof.
  intros Hv. unfold add_node. destruct (truthy (JObj kv)); [|done].
  cbn [negb py_contains ret]. rewrite Hv.
  rewrite bool_decide_eq_false_2; [done|]. by intros [? [=]].
Qed.

(** What the handler does get right about invalid input: a body without
    the field, a field holding text that [int] cannot read, and a field
    holding an integer that is not positive are each answered with 400, and
    the server is left as it was. *)
Lemma add_node_rejects_invalid self kv uuid now :
  (assoc "cpu_cores" kv = None ->
   add_node self (JObj kv) uuid now
   = (Resp (error_body "CPU cores specification required") 400, self)) /\
  (forall s, assoc "cpu_cores" kv = Some (JStr s) ->
             int_of_str s = inl ValueError ->
   add_node self (JObj kv) uuid now
   = (Resp (error_body "CPU cores must be a number") 400, self)) /\
  (forall z, assoc "cpu_cores" kv = Some (JInt z) -> z <= 0 ->
   add_node self (JObj kv) uuid now
   = (Resp (error_body "CPU cores must be positive") 400, self)).
Proof.
  split; [apply add_node_missing|]. split.
  - intros s Hs Hbad. rewrite (add_node_obj _ _ _ _ _ Hs). simpl.
    by rewrite Hbad.
  - intros z Hz Hle. rewrite (add_node_obj _ _ _ _ _ Hz). simpl.
    apply Z.leb_le in Hle. by rewrite Hle.
Qed.

Example add_node_rejects_abc self uuid now :
  add_node self (JObj [("cpu_cores"%string, JStr "abc")]) uuid now
  = (Resp (error_body "CPU cores must be a number") 400, self).
Proof. reflexivity. Qed.

Example int_of_str_readable :
  int_of_str "  -1_000 " = inr (-1000) /\ int_of_str "4" = inr 4 /\
  int_of_str "4.0" = inl ValueError /\ int_of_str "" = inl ValueError /\
  int_of_str "1__0" = inl ValueError /\ int_of_str "+ 3" = inl ValueError.
Proof. repeat split. Qed.

(** C5: the handler does not answer 400 to every request whose [cpu_cores]
    is not a number.  For the body [{"cpu_cores": null}] the call
    [int(None)] raises [TypeError], which [except ValueError] does not
    catch: the exception leaves the handler and no 400 response is built.
    The registry is left as it was. *)
Theorem C5_null_cpu_cores_escapes (self : APIServer) (uuid : string) (now : Q) :
  add_node self (JObj [("cpu_cores"%string, JNull)]) uuid now
  = (Uncaught TypeError, self).
Proof. reflexivity. Qed.

(** C9: [register_node] checks nothing.  For every integer, zero and the
    negative ones included, it returns and stores under the drawn uuid a
    record that is Ready and whose [cpu_cores] and [available_cores] are
    that integer; the handler [add_node], given the same integer in the
    request body, refuses it with 400 when it is not positive and leaves
    the server as it was. *)
Theorem C9_register_node_unchecked (self : APIServer) (cpu : Z) (cid : json)
    (uuid : string) (now : Q) :
  (exists n self',
     register_node self cpu cid uuid now = (n, self') /\
     nodes self' !! uuid = Some n /\
     node_id n = uuid /\
     status n = Ready /\
     cpu_cores n = cpu /\
     available_cores n = cpu) /\
  (cpu <= 0 ->
   add_node self (JObj [("cpu_cores"%string, JInt cpu)]) uuid now
   = (Resp (error_body "CPU cores must be positive") 400, self)).
Proof.
  split.
  - eexists _, _. split; [reflexivity|]. simpl.
    split; [apply lookup_insert_eq | done].
  - intros Hle.
    rewrite (add_node_obj _ _ (JInt cpu)) by reflexivity. simpl.
    apply Z.leb_le in Hle. by rewrite Hle.
Qed.

Lemma C9_register_node_unchecked_witness :
  (exists n self',
     register_node APIServer_init (-3) JNull n1 (0 # 1) = (n, self') /\
     nodes self' !! n1 = Some n /\ cpu_cores n = -3 /\ status n = Ready) /\
  add_node APIServer_init (JObj [("cpu_cores"%string, JInt (-3))]) n1 (0 # 1)
  = (Resp (error_body "CPU cores must be positive") 400, APIServer_init).
Proof.
  destruct (C9_register_node_unchecked APIServer_init (-3) JNull n1 (0 # 1))
    as [(n & self' & Hreg & Hn & _ & Hs & Hc & _) Hhttp].
  split.
  - exists n, self'. repeat split; assumption.
  - apply Hhttp. lia.
Defined.

(** ** Fractional core counts *)

Lemma trunc_pos (q : Q) : (1 <= q)%Q -> 0 < trunc q.
Proof.
  unfold Qle, trunc. simpl. intros H.
  apply Z.lt_le_trans with 1; [lia|].
  apply Z.quot_le_lower_bound; lia.
Qed.

Lemma trunc_nonpos (q : Q) : (q < 1)%Q -> trunc q <= 0.
Proof.
  unfold Qlt, trunc. simpl. intros H.
  destruct (Z.le_gt_cases 0 (Qnum q)) as [Hn|Hn].
  - rewrite Z.quot_small; lia.
  - rewrite <- (Z.opp_involutive (Qnum q)), Z.quot_opp_l by lia.
    assert (0 <= Z.quot (- Qnum q) (Zpos (Qden q))); [|lia].
    apply Z.quot_pos; lia.
Qed.

(** C10, as stated, fails: 0.5 is a number with a fractional part, [int]
    truncates it to 0, and the request is refused with 400; no record is
    created. *)
Lemma C10_half_a_core_rejected :
  has_fraction (1 # 2) = true /\
  add_node APIServer_init
    (JObj [("cpu_cores"%string, JFloat (Finite (1 # 2)))]) n1 (0 # 1)
  = (Resp (error_body "CPU cores must be positive") 400, APIServer_init).
Proof. split; reflexivity. Qed.

(** C10, amended: a request whose [cpu_cores] is a finite float, with a
    fractional part or without, is accepted with 201 exactly when the value
    is at least 1; the record created then has the value truncated toward
    zero as its [cpu_cores] and [available_cores].  Below 1 the truncation
    is not positive and the request is refused with 400, the server left as
    it was. *)
Theorem C10_float_cpu_cores (self : APIServer) (kv : list (string * json))
    (q : Q) (uuid : string) (now : Q) :
  assoc "cpu_cores" kv = Some (JFloat (Finite q)) ->
  ((1 <= q)%Q ->
   exists n self',
     add_node self (JObj kv) uuid now
     = (Resp (JObj [ ("message", JStr "Node added successfully");
                     ("node_id", JStr uuid);
                     ("cpu_cores", JInt (trunc q)) ]%string) 201, self') /\
     nodes self' !! uuid = Some n /\
     cpu_cores n = trunc q /\
     available_cores n = trunc q /\
     status n = Ready /\
     0 < trunc q) /\
  ((q < 1)%Q ->
   add_node self (JObj kv) uuid now
   = (Resp (error_body "CPU cores must be positive") 400, self)).
Proof.
  intros Hv. rewrite (add_node_obj _ _ _ _ _ Hv). simpl. split.
  - intros Hq%trunc_pos.
    rewrite (proj2 (Z.leb_gt (trunc q) 0)) by done.
    eexists _, _. split; [reflexivity|]. simpl.
    split; [apply lookup_insert_eq | done].
  - intros Hq%trunc_nonpos. by rewrite (proj2 (Z.leb_le (trunc q) 0)).
Qed.

Lemma C10_float_cpu_cores_witness :
  (exists n self',
     add_node APIServer_init
       (JObj [("cpu_cores"%string, JFloat (Finite (5 # 2)))]) n1 (0 # 1)
     = (Resp (JObj [ ("message", JStr "Node added successfully");
                     ("node_id", JStr n1);
                     ("cpu_cores", JInt 2) ]%string) 201, self') /\
     nodes self' !! n1 = Some n /\ cpu_cores n = 2) /\
  add_node APIServer_init
    (JObj [("cpu_cores"%string, JFloat (Finite (-5 # 2)))]) n1 (0 # 1)
  = (Resp (error_body "CPU cores must be positive") 400, APIServer_init).
Proof.
  split.
  - destruct (C10_float_cpu_cores APIServer_init
                [("cpu_cores"%string, JFloat (Finite (5 # 2)))] (5 # 2) n1 (0 # 1)
                eq_refl) as [Hacc _].
    destruct Hacc as (n & self' & Hresp & Hn & Hc & _).
    { vm_compute. discriminate. }
    exists n, self'. repeat split; assumption.
  - destruct (C10_float_cpu_cores APIServer_init
                [("cpu_cores"%string, JFloat (Finite (-5 # 2)))] (-5 # 2) n1 (0 # 1)
                eq_refl) as [_ Hrej].
    apply Hrej. vm_compute. reflexivity.
Defined.

(** * Further properties of the server *)

(** ** Listing *)

Lemma status_str_inj s1 s2 : status_str s1 = status_str s2 -> s1 = s2.
Proof. by destruct s1, s2. Qed.

Lemma JStr_fmap_inj (l1 l2 : list string) : JStr <$> l1 = JStr <$> l2 -> l1 = l2.
Proof.
  revert l2. induction l1 as [|a l1 IH]; intros [|b l2]; simpl; try done.
  intros [= -> H]. by rewrite (IH _ H).
Qed.

(** X1: the dictionary sent for a node determines the node: two records
    with the same [to_dict] are the same record, so a listing loses nothing
    of the registry's content. *)
Theorem X1_to_dict_injective (n m : Node) : to_dict n = to_dict m -> n = m.
Proof.
  destruct n as [i c a p s l k], m as [i' c' a' p' s' l' k'].
  unfold to_dict. simpl.
  intros [= -> -> -> Hp Hs -> ->].
  apply JStr_fmap_inj in Hp as ->. apply status_str_inj in Hs as ->. done.
Qed.

Lemma X1_to_dict_injective_witness :
  to_dict n1_record = to_dict (mkNode n1 4 4 [] Ready (0 # 1) JNull) /\
  n1_record = mkNode n1 4 4 [] Ready (0 # 1) JNull.
Proof.
  split; [reflexivity|]. apply X1_to_dict_injective. reflexivity.
Defined.

(** X2: [GET /nodes] answers 200; its ["count"] is the number of records
    in the registry and the length of its ["nodes"] list, and the list
    holds exactly the dictionaries of the registered records. *)
Theorem X2_list_nodes_view (self : APIServer) :
  exists ns,
    list_nodes_view self
    = Resp (JObj [ ("nodes", JList ns);
                   ("count", JInt (Z.of_nat (size (nodes self)))) ]%string) 200 /\
    length ns = size (nodes self) /\
    (forall d, d ∈ ns <->
               exists id n, nodes self !! id = Some n /\ d = to_dict n).
Proof.
  exists (list_nodes self). unfold list_nodes_view, list_nodes.
  rewrite length_fmap, length_map_to_list. repeat split.
  - intros ([id n] & -> & Hin)%list_elem_of_fmap.
    exists id, n. split; [by apply elem_of_map_to_list | done].
  - intros (id & n & Hn & ->). apply list_elem_of_fmap.
    exists (id, n). split; [done | by apply elem_of_map_to_list].
Qed.

(** ** What the registry holds along a run *)

Lemma node_step_fields timeout id n op :
  node_id (node_step timeout id n op) = node_id n /\
  cpu_cores (node_step timeout id n op) = cpu_cores n /\
  available_cores (node_step timeout id n op) = available_cores n /\
  pods (node_step timeout id n op) = pods n /\
  container_id (node_step timeout id n op) = container_id n.
Proof.
  destruct op as [c k u t| | |i t|t|d u t|i t]; simpl; try done.
  - by destruct (String.eqb i id).
  - by destruct (check_node_cases timeout t n) as [-> | ->].
  - by destruct (String.eqb i id).
Qed.

(** Where a record found after one operation comes from. *)
Lemma step_lookup_Some self op id n' :
  nodes (step self op) !! id = Some n' ->
  (exists n, nodes self !! id = Some n /\
             n' = node_step (heartbeat_timeout self) id n op) \/
  (exists cpu cid now,
     n' = set_container_id cid (Node_init cpu None id now) /\
     (direct_register op = false -> 0 < cpu)).
Proof.
  intros Hn'. destruct (decide (id ∈ draws_of op)) as [Hin|Hout].
  - right. unfold draws_of in Hin.
    destruct op as [c k u t| | |i t|t|d u t|i t]; simpl in Hin;
      try by apply elem_of_nil in Hin.
    + apply list_elem_of_singleton in Hin as ->. simpl in Hn'.
      rewrite lookup_insert_eq in Hn'. injection Hn' as <-.
      exists c, k, t. by split.
    + destruct (accepted d) eqn:Ha; [|by apply elem_of_nil in Hin].
      apply list_elem_of_singleton in Hin as ->. simpl in Hn'.
      destruct (add_node_accepted self d u t Ha) as (c & Hc & _ & Heq).
      rewrite Heq in Hn'. simpl in Hn'.
      rewrite lookup_insert_eq in Hn'. injection Hn' as <-.
      exists c, (py_get d "container_id"), t. by split.
  - left. rewrite step_lookup in Hn' by done.
    destruct (nodes self !! id) as [n|]; [|done].
    injection Hn' as <-. by exists n.
Qed.

(** X3: whatever the requests and scans of a run, every record of the
    registry is stored under its own [node_id], has all its cores
    available, and hosts no pod. *)
Theorem X3_registry_records_consistent (ops : list Op) (id : string) (n : Node) :
  nodes (run APIServer_init ops) !! id = Some n ->
  node_id n = id /\ available_cores n = cpu_cores n /\ pods n = [].
Proof.
  revert id n. induction ops as [|op ops IH] using rev_ind; intros id n.
  - by rewrite initial_lookup.
  - rewrite run_snoc.
    intros [(n0 & Hn0 & ->) | (c & k & t & -> & _)]%step_lookup_Some; [|done].
    destruct (IH _ _ Hn0) as (Hid & Hav & Hp).
    destruct (node_step_fields
                (heartbeat_timeout (run APIServer_init ops)) id n0 op)
      as (-> & -> & -> & -> & _).
    done.
Qed.

Lemma X3_registry_records_consistent_witness :
  nodes (run APIServer_init (silent_run ++ revived_run)) !! n1
  = Some (mkNode n1 4 4 [] NotReady (44 # 1) JNull) /\
  node_id (mkNode n1 4 4 [] NotReady (44 # 1) JNull) = n1.
Proof.
  assert (H : nodes (run APIServer_init (silent_run ++ revived_run)) !! n1
              = Some (mkNode n1 4 4 [] NotReady (44 # 1) JNull)).
  { vm_compute. reflexivity. }
  split; [exact H|].
  exact (proj1 (X3_registry_records_consistent _ _ _ H)).
Defined.

(** X4: when every registration of a run came through [POST /nodes], every
    record of the registry has a positive [cpu_cores]. *)
Theorem X4_http_registrations_positive (ops : list Op) (id : string) (n : Node) :
  forallb (fun op => negb (direct_register op)) ops = true ->
  nodes (run APIServer_init ops) !! id = Some n ->
  0 < cpu_cores n.
Proof.
  revert id n. induction ops as [|op ops IH] using rev_ind; intros id n.
  - by rewrite initial_lookup.
  - rewrite forallb_app, run_snoc. simpl. rewrite andb_true_r.
    intros [Hops Hop%negb_true_iff]%andb_true_iff.
    intros [(n0 & Hn0 & ->) | (c & k & t & -> & Hc)]%step_lookup_Some.
    + destruct (node_step_fields
                  (heartbeat_timeout (run APIServer_init ops)) id n0 op)
        as (_ & -> & _).
      by apply (IH id).
    + simpl. auto.
Qed.

Lemma X4_http_registrations_positive_witness :
  0 < cpu_cores (mkNode n1 4 4 [] Failed (0 # 1) JNull).
Proof.
  apply (X4_http_registrations_positive
           [http_registration; Scan (35 # 1); PostHeartbeat n2 (36 # 1);
            Scan (40 # 1)] n1).
  - reflexivity.
  - vm_compute. reflexivity.
Defined.

Lemma run_dom ops :
  dom (nodes (run APIServer_init ops)) = list_to_set (draws ops).
Proof.
  apply set_eq. intros id.
  rewrite elem_of_dom, elem_of_list_to_set. apply lookup_iff_drawn.
Qed.

(** X5: [get_node] finds a record exactly for the ids that a registration
    of the run handed back; no id is ever forgotten and none is made up. *)
Theorem X5_get_node_iff_returned (ops : list Op) (id : string) :
  is_Some (get_node (run APIServer_init ops) id)
  <-> id ∈ returned_ids APIServer_init ops.
Proof. rewrite returned_ids_draws. apply lookup_iff_drawn. Qed.

(** X6: when uuid4 never repeats a value, the registry holds one record
    per registration of the run, and [GET /nodes] reports that number. *)
Theorem X6_one_record_per_registration (ops : list Op) :
  NoDup (draws ops) ->
  size (nodes (run APIServer_init ops)) = length (returned_ids APIServer_init ops) /\
  length (list_nodes (run APIServer_init ops))
  = length (returned_ids APIServer_init ops).
Proof.
  intros Hnd. rewrite returned_ids_draws.
  assert (Hsize : size (nodes (run APIServer_init ops)) = length (draws ops)).
  { rewrite <- size_dom, run_dom. by apply size_list_to_set. }
  split; [done|].
  unfold list_nodes. by rewrite length_fmap, length_map_to_list.
Qed.

Lemma X6_one_record_per_registration_witness :
  size (nodes (run APIServer_init
                 ([http_registration] ++ before_timeout ++ between_scans)))
  = 2%nat.
Proof.
  assert (Hnd : NoDup (draws ([http_registration] ++ before_timeout
                                ++ between_scans))).
  { apply (bool_decide_unpack _). vm_compute. exact I. }
  exact (proj1 (X6_one_record_per_registration _ Hnd)).
Defined.

(** ** What [POST /nodes] can answer *)

Lemma py_getitem_obj data v :
  py_getitem data "cpu_cores" = inr v ->
  exists kv, data = JObj kv /\ assoc "cpu_cores" kv = Some v.
Proof.
  destruct data as [| | | | | |kv]; try discriminate. simpl.
  destruct (assoc "cpu_cores" kv) as [w|] eqn:Hw; [|discriminate].
  intros [= ->]. by exists kv.
Qed.

(** X7: [add_node] answers 201 exactly when [int(data['cpu_cores'])] is a
    positive integer.  Whenever it is, the answer is 201 with the drawn id
    and that integer, and the server is the one [register_node] produces
    for that integer and the body's ["container_id"].  Whenever it is not
    (the expression raises, or its value is not positive), the answer is
    400 or an exception other than [ValueError] leaves the handler, and
    the server is left as it was. *)
Theorem X7_add_node_outcomes (self : APIServer) (data : json)
    (uuid : string) (now : Q) :
  (forall cores,
     bind (py_getitem data "cpu_cores") int = inr cores ->
     0 < cores ->
     add_node self data uuid now
     = (Resp (JObj [ ("message", JStr "Node added successfully");
                     ("node_id", JStr uuid);
                     ("cpu_cores", JInt cores) ]%string) 201,
        snd (register_node self cores (py_get data "container_id") uuid now))) /\
  ((forall cores,
      bind (py_getitem data "cpu_cores") int = inr cores -> cores <= 0) ->
   (exists msg, add_node self data uuid now = (Resp (error_body msg) 400, self)) \/
   (exists e, e <> ValueError /\ add_node self data uuid now = (Uncaught e, self))).
Proof.
  split.
  - intros cores Hint Hpos.
    destruct (py_getitem data "cpu_cores") as [e|v] eqn:Hget; [discriminate|].
    destruct (py_getitem_obj data v Hget) as (kv & -> & Hv).
    rewrite (add_node_obj _ _ _ _ _ Hv). simpl in Hint. rewrite Hint.
    by rewrite (proj2 (Z.leb_gt cores 0)).
  - intros Hnot. unfold add_node.
    destruct (truthy data); simpl; [|by left; eexists].
    destruct (py_contains "cpu_cores" data) as [e|[]] eqn:Hc.
    + right. exists e. split; [|done].
      destruct data; simpl in Hc; by inversion Hc.
    + destruct (bind (py_getitem data "cpu_cores") int) as [[]|cores].
      * left. by eexists.
      * right. by exists TypeError.
      * right. by exists OverflowError.
      * rewrite (proj2 (Z.leb_le cores 0)) by auto. left. by eexists.
    + left. by eexists.
Qed.

Lemma X7_add_node_outcomes_witness :
  add_node one_node
    (JObj [("cpu_cores"%string, JInt 2); ("container_id"%string, JStr "c0ffee")])
    n2 (7 # 1)
  = (Resp (JObj [ ("message", JStr "Node added successfully");
                  ("node_id", JStr n2);
                  ("cpu_cores", JInt 2) ]%string) 201,
     snd (register_node one_node 2 (JStr "c0ffee") n2 (7 # 1))) /\
  ((exists msg,
      add_node one_node (JObj [("cpu_cores"%string, JInt 0)]) n2 (7 # 1)
      = (Resp (error_body msg) 400, one_node)) \/
   (exists e,
      e <> ValueError /\
      add_node one_node (JObj [("cpu_cores"%string, JInt 0)]) n2 (7 # 1)
      = (Uncaught e, one_node))).
Proof.
  split.
  - apply (proj1 (X7_add_node_outcomes one_node
             (JObj [("cpu_cores"%string, JInt 2);
                    ("container_id"%string, JStr "c0ffee")]) n2 (7 # 1)) 2);
      [reflexivity | lia].
  - apply (proj2 (X7_add_node_outcomes one_node
             (JObj [("cpu_cores"%string, JInt 0)]) n2 (7 # 1))).
    intros cores [= <-]. lia.
Defined.

(** X8: a core count sent as text or as a boolean is coerced, not refused.
    Text that [int] reads as a positive integer registers a node with that
    many cores, [true] registers a node with one core, and [false] is
    refused as not positive. *)
Theorem X8_cpu_cores_coerced (self : APIServer) (kv : list (string * json))
    (uuid : string) (now : Q) :
  (forall s z,
     assoc "cpu_cores" kv = Some (JStr s) -> int_of_str s = inr z -> 0 < z ->
     fst (add_node self (JObj kv) uuid now)
     = Resp (JObj [ ("message", JStr "Node added successfully");
                    ("node_id", JStr uuid);
                    ("cpu_cores", JInt z) ]%string) 201 /\
     (cpu_cores <$> nodes (snd (add_node self (JObj kv) uuid now)) !! uuid)
     = Some z) /\
  (assoc "cpu_cores" kv = Some (JBool true) ->
     fst (add_node self (JObj kv) uuid now)
     = Resp (JObj [ ("message", JStr "Node added successfully");
                    ("node_id", JStr uuid);
                    ("cpu_cores", JInt 1) ]%string) 201 /\
     (cpu_cores <$> nodes (snd (add_node self (JObj kv) uuid now)) !! uuid)
     = Some 1) /\
  (assoc "cpu_cores" kv = Some (JBool false) ->
     add_node self (JObj kv) uuid now
     = (Resp (error_body "CPU cores must be positive") 400, self)).
Proof.
  split; [|split].
  - intros s z Hv Hs Hz. rewrite (add_node_obj _ _ _ _ _ Hv). simpl.
    rewrite Hs, (proj2 (Z.leb_gt z 0)) by done. simpl.
    by rewrite lookup_insert_eq.
  - intros Hv. rewrite (add_node_obj _ _ _ _ _ Hv). simpl.
    by rewrite lookup_insert_eq.
  - intros Hv. by rewrite (add_node_obj _ _ _ _ _ Hv).
Qed.

Lemma X8_cpu_cores_coerced_witness :
  fst (add_node APIServer_init (JObj [("cpu_cores"%string, JStr " 8 ")])
         n1 (0 # 1))
  = Resp (JObj [ ("message", JStr "Node added successfully");
                 ("node_id", JStr n1);
                 ("cpu_cores", JInt 8) ]%string) 201 /\
  fst (add_node APIServer_init (JObj [("cpu_cores"%string, JBool true)])
         n1 (0 # 1))
  = Resp (JObj [ ("message", JStr "Node added successfully");
                 ("node_id", JStr n1);
                 ("cpu_cores", JInt 1) ]%string) 201 /\
  add_node APIServer_init (JObj [("cpu_cores"%string, JBool false)]) n1 (0 # 1)
  = (Resp (error_body "CPU cores must be positive") 400, APIServer_init).
Proof.
  split; [|split].
  - destruct (X8_cpu_cores_coerced APIServer_init
                [("cpu_cores"%string, JStr " 8 ")] n1 (0 # 1)) as [H _].
    apply (H " 8 "%string 8); [reflexivity | reflexivity | lia].
  - destruct (X8_cpu_cores_coerced APIServer_init
                [("cpu_cores"%string, JBool true)] n1 (0 # 1)) as (_ & H & _).
    by apply H.
  - destruct (X8_cpu_cores_coerced APIServer_init
                [("cpu_cores"%string, JBool false)] n1 (0 # 1)) as (_ & _ & H).
    by apply H.
Defined.

(** X9: a request body that is not a dict never registers a node.  An
    absent or falsy body is answered 400; a number other than zero or
    [true] makes the membership test raise [TypeError]; a list or a text is
    answered 400 unless it contains ["cpu_cores"] (as an element, as a
    substring), in which case indexing it by that string raises
    [TypeError]. *)
Theorem X9_non_dict_bodies (self : APIServer) (uuid : string) (now : Q) :
  let required := Resp (error_body "CPU cores specification required") 400 in
  add_node self JNull uuid now = (required, self) /\
  (forall b, add_node self (JBool b) uuid now
             = (if b then Uncaught TypeError else required, self)) /\
  (forall z, add_node self (JInt z) uuid now
             = (if z =? 0 then required else Uncaught TypeError, self)) /\
  (forall f, add_node self (JFloat f) uuid now
             = (match f with
                | Finite q => if Qnum q =? 0 then required else Uncaught TypeError
                | _ => Uncaught TypeError
                end, self)) /\
  (forall l, add_node self (JList l) uuid now
             = (if existsb (is_str "cpu_cores") l then Uncaught TypeError
                else required, self)) /\
  (forall s, add_node self (JStr s) uuid now
             = (match index 0 "cpu_cores" s with
                | Some _ => Uncaught TypeError
                | None => required
                end, self)).
Proof.
  unfold add_node. repeat split.
  - by intros [].
  - intros z. simpl. by destruct (z =? 0).
  - intros [q| |]; simpl; try done. by destruct (Qnum q =? 0).
  - intros [|v l]; simpl; [done|].
    by destruct (is_str "cpu_cores" v || existsb (is_str "cpu_cores") l).
  - intros s. simpl.
    destruct (String.eqb_spec s ""%string) as [->|Hs]; simpl; [done|].
    by destruct (index 0 "cpu_cores" s).
Qed.

(** X10: the floats that are not finite.  A NaN is answered 400 as not a
    number; an infinity, which is what a JSON literal too large for a
    double is read as, makes [int] raise [OverflowError], which leaves the
    handler uncaught.  Neither registers a node. *)
Theorem X10_special_floats (self : APIServer) (kv : list (string * json))
    (uuid : string) (now : Q) :
  (assoc "cpu_cores" kv = Some (JFloat NaN) ->
   add_node self (JObj kv) uuid now
   = (Resp (error_body "CPU cores must be a number") 400, self)) /\
  (forall negative,
     assoc "cpu_cores" kv = Some (JFloat (Inf negative)) ->
     add_node self (JObj kv) uuid now = (Uncaught OverflowError, self)).
Proof.
  split.
  - intros Hv. by rewrite (add_node_obj _ _ _ _ _ Hv).
  - intros negative Hv. by rewrite (add_node_obj _ _ _ _ _ Hv).
Qed.

Lemma X10_special_floats_witness :
  add_node APIServer_init (JObj [("cpu_cores"%string, JFloat NaN)]) n1 (0 # 1)
  = (Resp (error_body "CPU cores must be a number") 400, APIServer_init) /\
  add_node APIServer_init
    (JObj [("container_id"%string, JStr "c0ffee");
           ("cpu_cores"%string, JFloat (Inf false))]) n1 (0 # 1)
  = (Uncaught OverflowError, APIServer_init).
Proof.
  split.
  - by apply (proj1 (X10_special_floats APIServer_init
                       [("cpu_cores"%string, JFloat NaN)] n1 (0 # 1))).
  - by apply (proj2 (X10_special_floats APIServer_init
                       [("container_id"%string, JStr "c0ffee");
                        ("cpu_cores"%string, JFloat (Inf false))] n1 (0 # 1))
                false).
Defined.

(** ** How heartbeats and scans compose *)

Lemma server_eq (a b : APIServer) :
  nodes a = nodes b -> heartbeat_timeout a = heartbeat_timeout b -> a = b.
Proof. destruct a, b. simpl. by intros -> _. Qed.

(** X11: of two heartbeats for one node only the later one shows, and
    heartbeats for two different nodes can be taken in either order. *)
Theorem X11_heartbeats_compose (self : APIServer) (i j : string) (t1 t2 : Q) :
  snd (update_node_heartbeat (snd (update_node_heartbeat self i t1)) i t2)
  = snd (update_node_heartbeat self i t2) /\
  (i <> j ->
   snd (update_node_heartbeat (snd (update_node_heartbeat self i t1)) j t2)
   = snd (update_node_heartbeat (snd (update_node_heartbeat self j t2)) i t1)).
Proof.
  unfold update_node_heartbeat. split.
  - destruct (nodes self !! i) as [n|] eqn:Hi; simpl.
    + rewrite lookup_insert_eq. simpl. by rewrite insert_insert_eq.
    + by rewrite Hi.
  - intros Hij.
    destruct (nodes self !! i) as [n|] eqn:Hi,
             (nodes self !! j) as [m|] eqn:Hj; simpl;
      rewrite ?lookup_insert_ne, ?Hi, ?Hj by done; simpl; try done.
    by rewrite insert_insert_ne.
Qed.

Lemma X11_heartbeats_compose_witness :
  snd (update_node_heartbeat (snd (update_node_heartbeat one_node n1 (3 # 1)))
         n2 (4 # 1))
  = snd (update_node_heartbeat (snd (update_node_heartbeat one_node n2 (4 # 1)))
           n1 (3 # 1)).
Proof.
  apply (proj2 (X11_heartbeats_compose one_node n1 n2 (3 # 1) (4 # 1))).
  vm_compute. discriminate.
Defined.

(** X12: a scan that finds every node within its timeout changes nothing
    at all. *)
Theorem X12_timely_scan_is_identity (self : APIServer) (now : Q) :
  (forall id n, nodes self !! id = Some n ->
                (now - last_heartbeat n <= heartbeat_timeout self)%Q) ->
  monitor_scan self now = self.
Proof.
  intros Hall.
  assert (Hnodes : nodes (monitor_scan self now) = nodes self).
  { apply map_eq. intros id. rewrite monitor_scan_lookup.
    destruct (nodes self !! id) as [n|] eqn:Hn; [|done]. simpl.
    rewrite check_node_timely; [done | apply timeout_representable | eauto]. }
  by apply server_eq.
Qed.

Lemma X12_timely_scan_is_identity_witness :
  monitor_scan one_node (30 # 1) = one_node.
Proof.
  apply X12_timely_scan_is_identity. intros id n Hn.
  destruct (decide (id = n1)) as [->|Hne].
  - rewrite one_node_lookup in Hn. injection Hn as <-.
    vm_compute. discriminate.
  - unfold one_node in Hn. simpl in Hn.
    rewrite lookup_insert_ne in Hn by done. by rewrite lookup_empty in Hn.
Defined.

Lemma check_node_stable timeout now n :
  check_node timeout now (check_node timeout now (check_node timeout now n))
  = check_node timeout now (check_node timeout now n).
Proof.
  destruct (float_gt (float_sub now (last_heartbeat n)) timeout) eqn:Hlate.
  - rewrite (check_node_late _ _ n) by done.
    rewrite (check_node_late _ _ (set_status _ n)) by done.
    rewrite check_node_late by done. simpl.
    by destruct (status n).
  - by rewrite !(check_node_on_time _ _ n).
Qed.

(** X13: at one clock reading, two scans bring the registry to rest: every
    node the scan finds past its timeout is Failed by then, and a third
    scan at that reading changes nothing. *)
Theorem X13_two_scans_settle (self : APIServer) (now : Q) :
  monitor_scan (monitor_scan (monitor_scan self now) now) now
  = monitor_scan (monitor_scan self now) now /\
  (forall id n,
     nodes self !! id = Some n ->
     float_gt (elapsed now n) (heartbeat_timeout self) = true ->
     status_of (monitor_scan (monitor_scan self now) now) id = Some Failed).
Proof.
  split.
  - assert (Hnodes :
      nodes (monitor_scan (monitor_scan (monitor_scan self now) now) now)
      = nodes (monitor_scan (monitor_scan self now) now)).
    { apply map_eq. intros id. rewrite !monitor_scan_lookup.
      rewrite !monitor_scan_timeout.
      destruct (nodes self !! id) as [n|]; [|done]. simpl.
      by rewrite check_node_stable. }
    by apply server_eq.
  - intros id n Hn Hlate. unfold status_of, elapsed in *.
    rewrite !monitor_scan_lookup, monitor_scan_timeout, Hn. simpl.
    rewrite (check_node_late _ _ n) by done.
    rewrite check_node_late by done. simpl.
    by destruct (status n).
Qed.

Lemma X13_two_scans_settle_witness :
  status_of (monitor_scan (monitor_scan one_node (31 # 1)) (31 # 1)) n1
  = Some Failed.
Proof.
  apply (proj2 (X13_two_scans_settle one_node (31 # 1)) n1 n1_record).
  - exact one_node_lookup.
  - vm_compute. reflexivity.
Defined.

(** X14: once a node is registered, every heartbeat for its id is answered
    200 and stores its clock reading, whatever requests and scans came in
    between: no operation makes the server forget a node, not even a later
    registration. *)
Theorem X14_registered_heartbeat_accepted (ops1 : list Op) (reg : Op)
    (u : string) (t0 : Q) (ops2 : list Op) (now : Q) :
  registration reg = Some (u, t0) ->
  exists self',
    update_heartbeat (run APIServer_init (ops1 ++ [reg] ++ ops2)) u now
    = (Resp (JObj [("status"%string, JStr "Heartbeat received")]) 200, self') /\
    (last_heartbeat <$> nodes self' !! u) = Some now.
Proof.
  intros Hreg.
  assert (Hsome : is_Some (nodes (run APIServer_init (ops1 ++ [reg] ++ ops2)) !! u)).
  { apply lookup_iff_drawn. rewrite !draws_app. unfold draws at 2. simpl.
    unfold draws_of at 1. rewrite Hreg. set_solver. }
  destruct Hsome as [n Hn]. unfold update_heartbeat.
  rewrite (update_node_heartbeat_known _ _ _ _ Hn). eexists. split; [done|].
  simpl. by rewrite lookup_insert_eq.
Qed.

Lemma X14_registered_heartbeat_accepted_witness :
  exists self',
    update_heartbeat
      (run APIServer_init
         ([] ++ [http_registration]
             ++ (before_timeout ++ [Scan (35 # 1); Scan (40 # 1)])))
      n1 (50 # 1)
    = (Resp (JObj [("status"%string, JStr "Heartbeat received")]) 200, self') /\
    (last_heartbeat <$> nodes self' !! n1) = Some (50 # 1)%Q.
Proof.
  apply (X14_registered_heartbeat_accepted [] http_registration n1 (0 # 1)).
  vm_compute. reflexivity.
Defined.

(** * The node container against the server *)

Lemma registration_body_cpu_cores self :
  assoc "cpu_cores" [ ("cpu_cores"%string, JInt (node_container.cpu_cores self));
                      ("container_id"%string,
                       match node_container.container_id self with
                       | Some c => JStr c
                       | None => JNull
                       end) ]
  = Some (JInt (node_container.cpu_cores self)).
Proof. reflexivity. Qed.

(** What the server makes of a registration request. *)
Lemma add_node_registration_body srv self uuid now :
  add_node srv (node_container.registration_body self) uuid now
  = if node_container.cpu_cores self <=? 0 then
      (Resp (error_body "CPU cores must be positive") 400, srv)
    else
      (Resp (JObj [ ("message", JStr "Node added successfully");
                    ("node_id", JStr uuid);
                    ("cpu_cores", JInt (node_container.cpu_cores self)) ]%string)
            201,
       snd (register_node srv (node_container.cpu_cores self)
              (match node_container.container_id self with
               | Some c => JStr c
               | None => JNull
               end) uuid now)).
Proof.
  unfold node_container.registration_body.
  by rewrite (add_node_obj _ _ _ _ _ (registration_body_cpu_cores self)).
Qed.

Lemma start_registration (srv : APIServer) (cpu : Z) (url : string)
    (docker : node_container.Docker) (t_node t_srv : Q) (uuid : string) :
  0 < cpu ->
  exists node cid,
    node_container.start (node_container.__init__ cpu url) docker t_node
      (post_nodes srv uuid t_srv)
    = (true, node) /\
    node_container.node_id node = Some uuid /\
    node_container.cpu_cores node = cpu /\
    node_container.running node = true /\
    nodes (snd (add_node srv (node_container.registration_body node) uuid t_srv))
      !! uuid
    = Some (mkNode uuid cpu cpu [] Ready t_srv (JStr cid)).
Proof.
  intros Hcpu. apply Z.leb_gt in Hcpu.
  unfold node_container.start, post_nodes, node_container.__init__.
  destruct docker as [[] [c|]]; cbn -[add_node];
    rewrite !add_node_registration_body; cbn -[add_node]; rewrite Hcpu;
    cbn -[add_node];
    eexists _, _; (split; [reflexivity|]);
    rewrite ?add_node_registration_body; cbn; rewrite ?Hcpu; cbn;
    repeat split; by rewrite lookup_insert_eq.
Qed.

(** X15: a node container with a positive core count that reaches the
    server is registered.  Whatever Docker answers, [start] returns [True],
    the node is running with a heartbeat thread, carries the id the server
    drew, and has a container id: the launched container's, or a simulated
    one when there is no Docker or the launch failed.  The server holds a
    Ready record under that id with the node's core count and container
    id. *)
Theorem X15_start_registers (srv : APIServer) (cpu : Z) (url : string)
    (docker : node_container.Docker) (t_node t_srv : Q) (uuid : string) :
  0 < cpu ->
  exists node cid,
    node_container.start (node_container.__init__ cpu url) docker t_node
      (post_nodes srv uuid t_srv)
    = (true, node) /\
    node_container.node_id node = Some uuid /\
    node_container.running node = true /\
    node_container.heartbeat_thread node = Some node_container.HeartbeatThread /\
    node_container.cpu_cores node = cpu /\
    node_container.container_id node = Some cid /\
    cid = match node_container.connects docker, node_container.launched docker with
          | true, Some c => c
          | _, _ => node_container.simulated_id t_node
          end /\
    nodes (snd (add_node srv (node_container.registration_body node) uuid t_srv))
      !! uuid
    = Some (mkNode uuid cpu cpu [] Ready t_srv (JStr cid)).
Proof.
  intros Hcpu. apply Z.leb_gt in Hcpu.
  unfold node_container.start, post_nodes, node_container.__init__.
  destruct docker as [[] [c|]]; cbn -[add_node];
    rewrite !add_node_registration_body; cbn -[add_node]; rewrite Hcpu;
    cbn -[add_node];
    eexists _, _; (split; [reflexivity|]);
    rewrite ?add_node_registration_body; cbn; rewrite ?Hcpu; cbn;
    repeat split; by rewrite lookup_insert_eq.
Qed.

Lemma X15_start_registers_witness :
  exists node,
    node_container.start (node_container.__init__ 4 "http://localhost:5000")
      (node_container.mkDocker true None) (1700000000 # 1)
      (post_nodes one_node n2 (7 # 1))
    = (true, node) /\
    node_container.node_id node = Some n2 /\
    node_container.container_id node = Some "simulated_1700000000"%string.
Proof.
  destruct (X15_start_registers one_node 4 "http://localhost:5000"
              (node_container.mkDocker true None) (1700000000 # 1) (7 # 1) n2)
    as (node & cid & Hstart & Hid & _ & _ & _ & Hcid & -> & _); [lia|].
  exists node. repeat split; assumption.
Defined.

(** X16: [start] returns [True] exactly when the request was answered 201
    with a node id.  A failed start leaves the node without an id, not
    running and without a heartbeat thread, as it was before; a successful
    or failed start never changes the core count or the server address. *)
Theorem X16_start_all_or_nothing (self : node_container.NodeContainer)
    (docker : node_container.Docker) (now : Q)
    (post : json -> option Response) :
  let result := node_container.start self docker now post in
  node_container.cpu_cores (snd result) = node_container.cpu_cores self /\
  node_container.api_server_url (snd result)
  = node_container.api_server_url self /\
  (fst result = true ->
     node_container.running (snd result) = true /\
     is_Some (node_container.node_id (snd result)) /\
     node_container.heartbeat_thread (snd result)
     = Some node_container.HeartbeatThread /\
     exists response,
       post (node_container.registration_body (snd result)) = Some response /\
       status_code response = 201 /\
       node_id_field response = node_container.node_id (snd result)) /\
  (fst result = false ->
     node_container.running (snd result) = node_container.running self /\
     node_container.node_id (snd result) = node_container.node_id self /\
     node_container.heartbeat_thread (snd result)
     = node_container.heartbeat_thread self /\
     forall response,
       post (node_container.registration_body (snd result)) = Some response ->
       status_code response = 201 ->
       node_id_field response = None).
Proof.
  unfold node_container.start, node_container._get_docker_client.
  destruct self as [cpu url ident nid [[]|] cid th run];
    destruct docker as [[] [c|]]; cbn;
    match goal with
    | |- context [post ?b] =>
        destruct (post b) as [[code field]|] eqn:Hpost; cbn;
        [destruct (Z.eqb_spec code 201) as [->|Hcode]; cbn;
         [destruct field as [i|]; cbn|]|]
    end;
    unfold node_container._cleanup_container,
      node_container._get_docker_client; cbn;
    repeat match goal with
           | |- context [String.eqb ?a ""] => destruct (String.eqb a "")
           end; cbn;
    repeat split; try done; try eauto;
    try (intros r Hr; rewrite Hpost in Hr; by inversion Hr);
    try (intros r Hr Hc; rewrite Hpost in Hr; inversion Hr; subst; done).
Qed.

Lemma X16_start_all_or_nothing_witness :
  node_container.running
    (snd (node_container.start (node_container.__init__ 0 "http://localhost:5000")
            (node_container.mkDocker false None) (5 # 1)
            (post_nodes one_node n2 (7 # 1))))
  = false.
Proof.
  apply (X16_start_all_or_nothing
           (node_container.__init__ 0 "http://localhost:5000")
           (node_container.mkDocker false None) (5 # 1)
           (post_nodes one_node n2 (7 # 1))).
  reflexivity.
Defined.

(** X17: a core count that is not positive never yields a node, although
    [node_container.py] itself does not check it: the server answers 400 to
    the registration, [start] fails, the helper [add_node] returns [None],
    and the server holds no new record. *)
Theorem X17_non_positive_cores_refused (srv : APIServer) (cpu : Z)
    (url : string) (docker : node_container.Docker) (t_node t_srv : Q)
    (uuid : string) :
  cpu <= 0 ->
  node_container.add_node cpu url docker t_node (post_nodes srv uuid t_srv)
  = None /\
  add_node srv
    (node_container.registration_body
       (snd (node_container.start (node_container.__init__ cpu url) docker
               t_node (post_nodes srv uuid t_srv))))
    uuid t_srv
  = (Resp (error_body "CPU cores must be positive") 400, srv).
Proof.
  intros Hcpu. apply Z.leb_le in Hcpu.
  unfold node_container.add_node, node_container.start, post_nodes,
    node_container.__init__.
  destruct docker as [[] [c|]]; cbn -[add_node];
    rewrite !add_node_registration_body; cbn -[add_node]; rewrite Hcpu;
    cbn -[add_node]; rewrite ?add_node_registration_body; cbn;
    repeat match goal with
           | |- context [String.eqb ?a ""] => destruct (String.eqb a "")
           end; cbn;
    by rewrite ?Hcpu.
Qed.

Lemma X17_non_positive_cores_refused_witness :
  node_container.add_node (-2) "http://localhost:5000"
    (node_container.mkDocker true (Some "9d41c0ffee"%string)) (5 # 1)
    (post_nodes one_node n2 (7 # 1))
  = None.
Proof.
  apply (X17_non_positive_cores_refused one_node (-2) "http://localhost:5000"
           (node_container.mkDocker true (Some "9d41c0ffee"%string))
           (5 # 1) (7 # 1) n2).
  lia.
Defined.

Lemma run_keeps_records self ops id :
  is_Some (nodes self !! id) -> is_Some (nodes (run self ops) !! id).
Proof.
  rewrite <- !not_eq_None_Some, run_lookup_None. tauto.
Qed.

(** X18: the heartbeats of a started node are welcome for good.  After a
    successful [start] against the server, whatever the server goes
    through afterwards, a heartbeat sent to the node's own path is answered
    200 and refreshes the node's record. *)
Theorem X18_started_node_heartbeats (srv : APIServer) (cpu : Z) (url : string)
    (docker : node_container.Docker) (t_node t_srv : Q) (uuid : string)
    (ops : list Op) (now : Q) :
  0 < cpu ->
  exists node self',
    node_container.start (node_container.__init__ cpu url) docker t_node
      (post_nodes srv uuid t_srv)
    = (true, node) /\
    update_heartbeat
      (run (snd (add_node srv (node_container.registration_body node)
                   uuid t_srv)) ops)
      (node_container.heartbeat_target node) now
    = (Resp (JObj [("status"%string, JStr "Heartbeat received")]) 200, self') /\
    (last_heartbeat <$> nodes self' !! uuid) = Some now.
Proof.
  intros Hcpu.
  destruct (start_registration srv cpu url docker t_node t_srv uuid Hcpu)
    as (node & cid & Hstart & Hid & _ & _ & Hrec).
  exists node.
  assert (Hsome : is_Some (nodes (run (snd (add_node srv
              (node_container.registration_body node) uuid t_srv)) ops) !! uuid)).
  { apply run_keeps_records. by rewrite Hrec. }
  destruct Hsome as [n Hn].
  unfold node_container.heartbeat_target. rewrite Hid.
  unfold update_heartbeat. rewrite (update_node_heartbeat_known _ _ _ _ Hn).
  eexists. split; [done|]. split; [done|]. simpl. by rewrite lookup_insert_eq.
Qed.

Lemma X18_started_node_heartbeats_witness :
  exists node self',
    node_container.start (node_container.__init__ 4 "http://localhost:5000")
      (node_container.mkDocker false None) (5 # 1)
      (post_nodes one_node n2 (7 # 1))
    = (true, node) /\
    update_heartbeat
      (run (snd (add_node one_node (node_container.registration_body node)
                   n2 (7 # 1)))
           [Scan (40 # 1); Scan (45 # 1)])
      (node_container.heartbeat_target node) (50 # 1)
    = (Resp (JObj [("status"%string, JStr "Heartbeat received")]) 200, self') /\
    (last_heartbeat <$> nodes self' !! n2) = Some (50 # 1)%Q.
Proof.
  apply (X18_started_node_heartbeats one_node 4 "http://localhost:5000"
           (node_container.mkDocker false None) (5 # 1) (7 # 1) n2
           [Scan (40 # 1); Scan (45 # 1)] (50 # 1)).
  lia.
Defined.

(** * Pickling and the command line *)

Lemma setstate_getstate_fields self :
  let back := node_container.__setstate__ (node_container.__getstate__ self) in
  node_container.cpu_cores back = node_container.cpu_cores self /\
  node_container.api_server_url back = node_container.api_server_url self /\
  node_container.identifier back = node_container.identifier self /\
  node_container.node_id back = node_container.node_id self /\
  node_container.container_id back = node_container.container_id self /\
  node_container.running back = node_container.running self /\
  node_container.docker_client back = None /\
  node_container.heartbeat_thread back
  = if node_container.running self then Some node_container.HeartbeatThread
    else None.
Proof. by destruct self as [c u i n d k t []]. Qed.

(** X19: what pickling keeps.  Saving a node and loading it again gives a
    node with the same core count, server address, identifier, node id,
    container id and running flag; the Docker client is gone, to be created
    again on first use, and there is a heartbeat thread exactly when the
    node was running.  Saving anew what was loaded writes the same state. *)
Theorem X19_pickle_round_trip (self : node_container.NodeContainer) :
  node_container.cpu_cores
    (node_container.__setstate__ (node_container.__getstate__ self))
  = node_container.cpu_cores self /\
  node_container.api_server_url
    (node_container.__setstate__ (node_container.__getstate__ self))
  = node_container.api_server_url self /\
  node_container.identifier
    (node_container.__setstate__ (node_container.__getstate__ self))
  = node_container.identifier self /\
  node_container.node_id
    (node_container.__setstate__ (node_container.__getstate__ self))
  = node_container.node_id self /\
  node_container.container_id
    (node_container.__setstate__ (node_container.__getstate__ self))
  = node_container.container_id self /\
  node_container.running
    (node_container.__setstate__ (node_container.__getstate__ self))
  = node_container.running self /\
  node_container.docker_client
    (node_container.__setstate__ (node_container.__getstate__ self))
  = None /\
  node_container.heartbeat_thread
    (node_container.__setstate__ (node_container.__getstate__ self))
  = (if node_container.running self then Some node_container.HeartbeatThread
     else None) /\
  node_container.__getstate__
    (node_container.__setstate__ (node_container.__getstate__ self))
  = node_container.__getstate__ self.
Proof. by destruct self as [c u i n d k t []]. Qed.

(** X20: the command [add-node] against a server it can reach.  For text
    that [int] reads as a positive integer the exit code is 0, the started
    node is kept in [active_nodes] under the id the server drew and the
    registry file is saved, and the server holds a record with that many
    cores: the server never refuses what the command line lets through.
    For any other text the exit code is 1 and nothing changes; the result
    does not depend on the transport, no request being made. *)
Theorem X20_cli_add_node (active_nodes : gmap (option string) node_container.NodeContainer)
    (file : kubernetes_sim_cli.registry_file) (arg url : string)
    (docker : node_container.Docker) (t_node t_srv : Q) (srv : APIServer)
    (uuid : string) (writable : bool) :
  (forall cores,
     int_of_str arg = inr cores -> 0 < cores ->
     exists node,
       kubernetes_sim_cli.add_node active_nodes file arg url docker t_node
         (post_nodes srv uuid t_srv) writable
       = (0, <[Some uuid := node]> active_nodes,
          kubernetes_sim_cli.save_nodes (<[Some uuid := node]> active_nodes)
            writable file) /\
       node_container.cpu_cores node = cores /\
       node_container.running node = true /\
       (cpu_cores <$>
          nodes (snd (add_node srv (node_container.registration_body node)
                        uuid t_srv)) !! uuid)
       = Some cores) /\
  ((forall cores, int_of_str arg = inr cores -> cores <= 0) ->
   forall post,
     kubernetes_sim_cli.add_node active_nodes file arg url docker t_node
       post writable
     = (1, active_nodes, file)).
Proof.
  unfold kubernetes_sim_cli.add_node. split.
  - intros cores -> Hc. rewrite (proj2 (Z.leb_gt cores 0)) by done.
    destruct (start_registration srv cores url docker t_node t_srv uuid Hc)
      as (node & cid & Hstart & Hid & Hcpu & Hrun & Hrec).
    exists node. rewrite Hstart, Hid. repeat split; try done.
    by rewrite Hrec.
  - intros Hbad post. destruct (int_of_str arg) as [e|cores]; [done|].
    by rewrite (proj2 (Z.leb_le cores 0)) by auto.
Qed.

Lemma X20_cli_add_node_witness :
  (exists node,
     kubernetes_sim_cli.add_node ∅ kubernetes_sim_cli.Absent " 4 "
       "http://localhost:5000" (node_container.mkDocker false None) (5 # 1)
       (post_nodes one_node n2 (7 # 1)) true
     = (0, <[Some n2 := node]> ∅,
        kubernetes_sim_cli.save_nodes (<[Some n2 := node]> ∅) true
          kubernetes_sim_cli.Absent) /\
     node_container.cpu_cores node = 4) /\
  kubernetes_sim_cli.add_node ∅ kubernetes_sim_cli.Absent "four"
    "http://localhost:5000" (node_container.mkDocker false None) (5 # 1)
    (post_nodes one_node n2 (7 # 1)) true
  = (1, ∅, kubernetes_sim_cli.Absent).
Proof.
  split.
  - destruct (X20_cli_add_node ∅ kubernetes_sim_cli.Absent " 4 "
                "http://localhost:5000" (node_container.mkDocker false None)
                (5 # 1) (7 # 1) one_node n2 true) as [Hok _].
    destruct (Hok 4) as (node & Hres & Hcpu & _); [reflexivity | lia |].
    by exists node.
  - destruct (X20_cli_add_node ∅ kubernetes_sim_cli.Absent "four"
                "http://localhost:5000" (node_container.mkDocker false None)
                (5 # 1) (7 # 1) one_node n2 true) as [_ Hbad].
    apply Hbad. intros cores Hc. vm_compute in Hc. discriminate.
Defined.

(** X21: loading what was saved.  After a successful save, a load finds a
    node under every key of [active_nodes] and under no other; the loaded
    node has the id, the core count, the container id and the running flag
    of the saved one, and a heartbeat thread of its own exactly when that
    flag is set.  When the file cannot be opened for writing it stays as it
    was. *)
Theorem X21_save_then_load
    (active_nodes other : gmap (option string) node_container.NodeContainer)
    (file : kubernetes_sim_cli.registry_file) :
  (forall key,
     kubernetes_sim_cli.load_nodes other
       (kubernetes_sim_cli.save_nodes active_nodes true file) !! key
     = (fun node =>
          node_container.__setstate__ (node_container.__getstate__ node))
         <$> active_nodes !! key) /\
  (forall key node,
     active_nodes !! key = Some node ->
     exists loaded,
       kubernetes_sim_cli.load_nodes other
         (kubernetes_sim_cli.save_nodes active_nodes true file) !! key
       = Some loaded /\
       node_container.node_id loaded = node_container.node_id node /\
       node_container.cpu_cores loaded = node_container.cpu_cores node /\
       node_container.container_id loaded = node_container.container_id node /\
       node_container.running loaded = node_container.running node /\
       (is_Some (node_container.heartbeat_thread loaded)
        <-> node_container.running node = true)) /\
  kubernetes_sim_cli.save_nodes active_nodes false file = file.
Proof.
  assert (Hlookup : forall key,
     kubernetes_sim_cli.load_nodes other
       (kubernetes_sim_cli.save_nodes active_nodes true file) !! key
     = (fun node =>
          node_container.__setstate__ (node_container.__getstate__ node))
         <$> active_nodes !! key).
  { intros key. simpl. rewrite !lookup_fmap.
    by destruct (active_nodes !! key). }
  split; [exact Hlookup|]. split; [|done].
  intros key node Hnode. eexists. rewrite Hlookup, Hnode.
  split; [reflexivity|].
  destruct (setstate_getstate_fields node)
    as (Hc & _ & _ & Hi & Hk & Hr & _ & Ht).
  repeat split; try done.
  - rewrite Ht. by destruct (node_container.running node); intros [? [=]].
  - rewrite Ht. intros ->. by eexists.
Qed.

Lemma foldl_delete_lookup (l : list (option string * node_container.NodeContainer))
    (m : gmap (option string) node_container.NodeContainer) key :
  foldl (fun acc item => delete (fst item) acc) m l !! key
  = if decide (key ∈ l.*1) then None else m !! key.
Proof.
  revert m. induction l as [|[k0 v] l IH]; intros m; simpl; [done|].
  rewrite IH.
  destruct (decide (key ∈ l.*1)) as [Hin|Hin].
  - rewrite decide_True; [done|]. apply elem_of_cons. by right.
  - destruct (decide (key = k0)) as [Heq|Hne].
    + rewrite decide_True by (apply elem_of_cons; by left).
      rewrite Heq. apply lookup_delete_eq.
    + rewrite decide_False by (by intros [?|?]%elem_of_cons).
      by apply lookup_delete_ne.
Qed.

(** X22: [stop-all] leaves no active node and exits 0.  With nothing
    active it does not touch the registry file; otherwise it saves the
    empty registry, so that the next load starts from nothing. *)
Theorem X22_stop_all_nodes
    (active_nodes other : gmap (option string) node_container.NodeContainer)
    (file : kubernetes_sim_cli.registry_file) (writable : bool) :
  exists file',
    kubernetes_sim_cli.stop_all_nodes active_nodes file writable
    = (0, ∅, file') /\
    (active_nodes = ∅ -> file' = file) /\
    (active_nodes <> ∅ -> writable = true ->
     file' = kubernetes_sim_cli.Pickled ∅ /\
     kubernetes_sim_cli.load_nodes other file' = ∅).
Proof.
  unfold kubernetes_sim_cli.stop_all_nodes.
  destruct (decide (active_nodes = ∅)) as [->|Hne].
  - exists file. by repeat split.
  - assert (Hempty :
      foldl (fun acc item => delete (fst item) acc) active_nodes
        (map_to_list active_nodes) = ∅).
    { apply map_empty. intros key. rewrite foldl_delete_lookup.
      case_decide as Hin; [done|].
      destruct (active_nodes !! key) as [v|] eqn:Hk; [|done].
      exfalso. apply Hin. apply list_elem_of_fmap. exists (key, v).
      split; [done|]. by apply elem_of_map_to_list. }
    rewrite Hempty. eexists. split; [reflexivity|]. split; [done|].
    intros _ ->. simpl. by rewrite !fmap_empty.
Qed.

Lemma X21_save_then_load_witness :
  exists loaded,
    kubernetes_sim_cli.load_nodes ∅
      (kubernetes_sim_cli.save_nodes
         {[ Some n1 :=
              node_container.mkNodeContainer 4 "http://localhost:5000" None
                (Some n1) (Some node_container.SimulatedDockerClient)
                (Some "simulated_5"%string)
                (Some node_container.HeartbeatThread) true ]}
         true kubernetes_sim_cli.Absent) !! Some n1
    = Some loaded /\
    node_container.node_id loaded = Some n1 /\
    node_container.running loaded = true.
Proof.
  destruct (X21_save_then_load
              {[ Some n1 :=
                   node_container.mkNodeContainer 4 "http://localhost:5000" None
                     (Some n1) (Some node_container.SimulatedDockerClient)
                     (Some "simulated_5"%string)
                     (Some node_container.HeartbeatThread) true ]}
              ∅ kubernetes_sim_cli.Absent) as (_ & Hload & _).
  destruct (Hload (Some n1) _ (lookup_singleton_eq _ _))
    as (loaded & Hl & Hid & _ & _ & Hrun & _).
  exists loaded. repeat split; assumption.
Defined.

Lemma X22_stop_all_nodes_witness :
  exists file',
    kubernetes_sim_cli.stop_all_nodes
      {[ Some n1 := node_container.__init__ 4 "http://localhost:5000" ]}
      kubernetes_sim_cli.Absent true
    = (0, ∅, file') /\
    file' = kubernetes_sim_cli.Pickled ∅.
Proof.
  destruct (X22_stop_all_nodes
              {[ Some n1 := node_container.__init__ 4 "http://localhost:5000" ]}
              ∅ kubernetes_sim_cli.Absent true)
    as (file' & Hres & _ & Hfile).
  exists file'. split; [exact Hres|].
  apply Hfile; [|reflexivity].
  intros Hempty. apply (f_equal (fun m => m !! Some n1)) in Hempty.
  rewrite lookup_singleton_eq, lookup_empty in Hempty. discriminate.
Defined.



(** * The threads of the server *)

Import Threads.

(** ** The dictionary *)


Lemma dict_get_elem k v d : dict_get k d = Some v -> (k, v) ∈ d.
Proof.
  induction d as [|[k' v'] d IH]; csimpl; [done|].
  destruct (String.eqb_spec k' k) as [->|Hne].
  - intros [= ->]. left.
  - intros H. right. by apply IH.
Qed.



Lemma dict_set_keys k v d :
  (dict_set k v d).*1 = if decide (k ∈ d.*1) then d.*1 else d.*1 ++ [k].
Proof.
  induction d as [|[k' v'] d IH]; csimpl.
  - destruct (decide (k ∈ [])) as [H|H]; [by apply elem_of_nil in H|done].
  - destruct (String.eqb_spec k' k) as [->|Hne]; csimpl.
    + by rewrite decide_True by left.
    + rewrite IH. destruct (decide (k ∈ d.*1)).
      * by rewrite decide_True by (by right).
      * rewrite decide_False; [done|]. by intros [?|?]%elem_of_cons.
Qed.

Lemma dict_set_NoDup k v d : NoDup d.*1 -> NoDup (dict_set k v d).*1.
Proof.
  intros Hnd. rewrite dict_set_keys. case_decide; [done|].
  apply NoDup_app. split; [done|]. split; [|apply NoDup_singleton].
  intros x Hx ->%list_elem_of_singleton. done.
Qed.

Lemma dict_set_elem k v d j l :
  (j, l) ∈ dict_set k v d -> (j, l) ∈ d \/ (j = k /\ l = v).
Proof.
  induction d as [|[k' v'] d IH]; csimpl.
  - intros [= -> ->]%list_elem_of_singleton. by right.
  - destruct (String.eqb_spec k' k) as [->|Hne].
    + intros [[= -> ->]|?]%elem_of_cons; [by right|]. left. by right.
    + intros [[= -> ->]|?]%elem_of_cons; [left; left|].
      destruct IH as [?|?]; [done| |by right]. left. by right.
Qed.

Lemma dict_set_length k v d :
  length (dict_set k v d)
  = match dict_get k d with Some _ => length d | None => S (length d) end.
Proof.
  induction d as [|[k' v'] d IH]; csimpl; [done|].
  destruct (String.eqb_spec k' k) as [->|Hne]; csimpl; [done|].
  rewrite IH. by destruct (dict_get k d).
Qed.

(** ** The store stays well formed *)

Lemma stored_mono h h' n : stored h n -> stored (h ++ h') n.
Proof.
  intros (Ha & Hp & t & Hin). repeat split; [done..|].
  exists t. apply elem_of_app. by left.
Qed.

Lemma stored_set_status h s n : stored h n -> stored h (set_status s n).
Proof. done. Qed.

Lemma stored_set_last_heartbeat h t n :
  stored h n -> stored h (set_last_heartbeat t n).
Proof. done. Qed.


Lemma Wf_spawn w r :
  private r = None -> held r = None -> listed r = [] -> Wf w -> Wf (spawn w r).
Proof.
  intros Hp Hh Hl [Hk Hi Ha Hr Hhd Hls Hpr].
  constructor; simpl; try done.
  - intros th r' node [[_ Hth]|[_ <-]]%lookup_snoc_Some Hheld; [eauto|congruence].
  - intros th r' j [[_ Hth]|[_ <-]]%lookup_snoc_Some Hj; [eauto|].
    rewrite Hl in Hj. by apply elem_of_nil in Hj.
  - intros th r' node [[_ Hth]|[_ <-]]%lookup_snoc_Some Hprv; [|congruence].
    destruct (Hpr th r' node Hth Hprv) as (Hobj & Hreach & Hheld & Huniq).
    split_and!; [done|done| |].
    + intros th' r'' [[_ Hth']|[_ <-]]%lookup_snoc_Some; [eauto|congruence].
    + intros th' r'' [[_ Hth']|[_ <-]]%lookup_snoc_Some; [eauto|congruence].
Qed.

Lemma thread_insert (reqs : list Request) th r0 r th' r' :
  reqs !! th = Some r0 -> <[th:=r]> reqs !! th' = Some r' ->
  (th' = th /\ r' = r) \/ (th' <> th /\ reqs !! th' = Some r').
Proof.
  intros _ [(-> & -> & _)|[Hne Hth]]%list_lookup_insert_Some; [by left|].
  right. by split.
Qed.

(** More history keeps the store well formed. *)
Lemma Wf_history w h :
  Wf w ->
  Wf (mkWorld (objects w) (self_nodes w) (monitor w) (requests w)
              (history w ++ h)).
Proof.
  intros [Hk Hi Ha Hr Hhd Hls Hpr]. constructor; simpl; try done.
  - intros id node Hin. destruct (Hr id node Hin) as (n & ? & ? & ?).
    exists n. eauto using stored_mono.
  - intros th r node Hth Hheld.
    destruct (Hhd th r node Hth Hheld) as (n & ? & ?).
    exists n. eauto using stored_mono.
  - intros th r j Hth Hj. destruct (Hls th r j Hth Hj) as (n & ? & ?).
    exists n. eauto using stored_mono.
Qed.

(** A thread moves on without touching the store. *)
Lemma Wf_thread w th r0 r :
  requests w !! th = Some r0 ->
  (private r = None \/ private r = private r0) ->
  (forall node, held r = Some node ->
     (exists n, objects w !! node = Some n /\ stored (history w) n) /\
     (forall th' r', requests w !! th' = Some r' -> private r' <> Some node)) ->
  (forall j, j ∈ listed r -> exists n, j = to_dict n /\ stored (history w) n) ->
  Wf w ->
  Wf (mkWorld (objects w) (self_nodes w) (monitor w) (<[th:=r]> (requests w))
              (history w)).
Proof.
  intros Hth0 Hprv Hheld Hlisted [Hk Hi Ha Hr Hhd Hls Hpr].
  constructor; simpl; try done.
  - intros th' r' node [[-> ->]|[Hne Hth']]%(thread_insert _ _ _ _ _ _ Hth0) Hh.
    + by apply Hheld.
    + eauto.
  - intros th' r' j [[-> ->]|[Hne Hth']]%(thread_insert _ _ _ _ _ _ Hth0) Hj.
    + by apply Hlisted.
    + eauto.
  - intros th' r' node [[-> ->]|[Hne Hth']]%(thread_insert _ _ _ _ _ _ Hth0) Hp.
    + destruct Hprv as [Hprv|Hprv]; [congruence|]. rewrite Hprv in Hp.
      destruct (Hpr th r0 node Hth0 Hp) as (Hobj & Hreach & Hnh & Huniq).
      split_and!; [done|done| |].
      * intros th' r' [[-> ->]|[Hne Hth']]%(thread_insert _ _ _ _ _ _ Hth0).
        -- intros Hh. destruct (Hheld node Hh) as [_ Hno].
           by apply (Hno th r0 Hth0).
        -- eauto.
      * intros th' r' [[-> ->]|[Hne Hth']]%(thread_insert _ _ _ _ _ _ Hth0);
          [done|]. eauto.
    + destruct (Hpr th' r' node Hth' Hp) as (Hobj & Hreach & Hnh & Huniq).
      split_and!; [done|done| |].
      * intros th'' r'' [[-> ->]|[Hne' Hth'']]%(thread_insert _ _ _ _ _ _ Hth0).
        -- intros Hh. destruct (Hheld node Hh) as [_ Hno].
           by apply (Hno th' r' Hth').
        -- eauto.
      * intros th'' r'' [[-> ->]|[Hne' Hth'']]%(thread_insert _ _ _ _ _ _ Hth0).
        -- intros Hp'. destruct Hprv as [Hprv|Hprv]; [congruence|].
           rewrite Hprv in Hp'. eauto.
        -- eauto.
Qed.

(** The monitor moves on within its scan. *)
Lemma Wf_monitor w m :
  scan_items m `sublist_of` scan_items (monitor w) -> m <> Faulted ->
  Wf w ->
  Wf (mkWorld (objects w) (self_nodes w) m (requests w) (history w)).
Proof.
  intros Hsub Hm [Hk Hi Ha Hr Hhd Hls Hpr].
  assert (Hsub' : forall x, x ∈ self_nodes w ++ scan_items m -> x ∈ reach w).
  { intros x [?|?]%elem_of_app; apply elem_of_app; [by left|right].
    by eapply elem_of_sublist. }
  constructor; simpl; try done.
  - eapply sublist_NoDup; [exact Hi|]. by apply fmap_sublist.
  - intros id node Hin. apply Hr. by apply Hsub'.
  - intros th r node Hth Hp.
    destruct (Hpr th r node Hth Hp) as (Hobj & Hreach & Hnh & Huniq).
    split_and!; [done| |done|done].
    intros ([id l] & -> & Hin)%list_elem_of_fmap. apply Hreach.
    apply list_elem_of_fmap. exists (id, l). split; [done|]. by apply Hsub'.
Qed.

(** A write to [status] or to [last_heartbeat] of an object within reach. *)
Lemma Wf_alter w id node f :
  (id, node) ∈ reach w ->
  (forall n, node_id (f n) = node_id n) ->
  (forall n, stored (history w) n -> stored (history w) (f n)) ->
  Wf w ->
  Wf (mkWorld (alter f node (objects w)) (self_nodes w) (monitor w)
              (requests w) (history w)).
Proof.
  intros Hin Hid Hst [Hk Hi Ha Hr Hhd Hls Hpr].
  assert (Hlook : forall l n, objects w !! l = Some n -> stored (history w) n ->
            exists n', alter f node (objects w) !! l = Some n' /\
                       node_id n' = node_id n /\ stored (history w) n').
  { intros l n Hl Hs. rewrite list_lookup_alter. case_decide as Heq.
    - subst l. rewrite Hl. simpl. eauto.
    - eauto. }
  constructor; simpl; try done.
  - intros id' l Hl. destruct (Hr id' l Hl) as (n & Hn & <- & Hs).
    destruct (Hlook l n Hn Hs) as (n' & ? & ? & ?). eauto.
  - intros th r l Hth Hh. destruct (Hhd th r l Hth Hh) as (n & Hn & Hs).
    destruct (Hlook l n Hn Hs) as (n' & ? & ? & ?). eauto.
  - intros th r l Hth Hp.
    destruct (Hpr th r l Hth Hp) as (Hobj & Hreach & Hnh & Huniq).
    split_and!; [|done..].
    rewrite list_lookup_alter_ne; [done|]. intros ->. apply Hreach.
    apply list_elem_of_fmap. by exists (id, l).
Qed.

(** [new_node = Node(cpu_cores)]. *)
Lemma Wf_alloc w th cpu cid uuid clock :
  requests w !! th = Some (AtNew cpu cid) ->
  Wf w ->
  Wf (mkWorld (objects w ++ [Node_init cpu None uuid clock]) (self_nodes w)
              (monitor w)
              (<[th := AtSetContainer cid (length (objects w))]> (requests w))
              (history w)).
Proof.
  intros Hth0 [Hk Hi Ha Hr Hhd Hls Hpr].
  constructor; simpl; try done.
  - intros id l Hl. destruct (Hr id l Hl) as (n & Hn & ? & ?).
    exists n. split; [by apply lookup_app_l_Some|done].
  - intros th' r' l [[-> ->]|[Hne Hth']]%(thread_insert _ _ _ _ _ _ Hth0) Hh;
      [done|].
    destruct (Hhd th' r' l Hth' Hh) as (n & Hn & ?).
    exists n. split; [by apply lookup_app_l_Some|done].
  - intros th' r' j [[-> ->]|[Hne Hth']]%(thread_insert _ _ _ _ _ _ Hth0) Hj.
    + by apply elem_of_nil in Hj.
    + eauto.
  - intros th' r' l [[-> ->]|[Hne Hth']]%(thread_insert _ _ _ _ _ _ Hth0) Hp.
    + injection Hp as <-. split_and!.
      * eexists. split; [by apply list_lookup_middle|done].
      * intros ([id l] & Heq & Hin)%list_elem_of_fmap. simpl in Heq.
        destruct (Hr id l Hin) as (n & Hn%lookup_lt_Some & _). lia.
      * intros th' r' [[-> ->]|[Hne Hth']]%(thread_insert _ _ _ _ _ _ Hth0);
          [done|].
        intros Hh. destruct (Hhd th' r' _ Hth' Hh) as (n & Hn%lookup_lt_Some & _).
        lia.
      * intros th' r' [[-> ->]|[Hne Hth']]%(thread_insert _ _ _ _ _ _ Hth0);
          [done|].
        intros Hp. destruct (Hpr th' r' _ Hth' Hp) as ((n & Hn%lookup_lt_Some & _) & _).
        lia.
    + destruct (Hpr th' r' l Hth' Hp) as ((n & Hn & Hfresh) & Hreach & Hnh & Huniq).
      split_and!; [|done| |].
      * exists n. split; [by apply lookup_app_l_Some|done].
      * intros th'' r'' [[-> ->]|[Hne' Hth'']]%(thread_insert _ _ _ _ _ _ Hth0);
          [done|eauto].
      * intros th'' r'' [[-> ->]|[Hne' Hth'']]%(thread_insert _ _ _ _ _ _ Hth0);
          [|eauto].
        intros [= <-]. apply lookup_lt_Some in Hn. lia.
Qed.

(** [new_node.container_id = container_id]. *)
Lemma Wf_set_container w th r cid node :
  requests w !! th = Some r -> private r = Some node ->
  Wf w ->
  Wf (mkWorld (alter (set_container_id cid) node (objects w)) (self_nodes w)
              (monitor w) (requests w) (history w)).
Proof.
  intros Hth0 Hp0 [Hk Hi Ha Hr Hhd Hls Hpr].
  destruct (Hpr th r node Hth0 Hp0) as (Hobj0 & Hreach0 & Hnh0 & Huniq0).
  constructor; simpl; try done.
  - intros id l Hl. destruct (Hr id l Hl) as (n & Hn & ? & ?).
    exists n. split; [|done]. rewrite list_lookup_alter_ne; [done|].
    intros ->. apply Hreach0. apply list_elem_of_fmap. by exists (id, l).
  - intros th' r' l Hth' Hh. destruct (Hhd th' r' l Hth' Hh) as (n & Hn & ?).
    exists n. split; [|done]. rewrite list_lookup_alter_ne; [done|].
    intros ->. by apply (Hnh0 th' r' Hth').
  - intros th' r' l Hth' Hp.
    destruct (Hpr th' r' l Hth' Hp) as ((n & Hn & Hfresh) & Hreach & Hnh & Huniq).
    split_and!; [|done..].
    rewrite list_lookup_alter. case_decide as Heq.
    + subst l. rewrite Hn. simpl. eauto.
    + eauto.
Qed.

(** [self.nodes[new_node.node_id] = new_node]. *)
Lemma Wf_store w th node n :
  requests w !! th = Some (AtStore node) ->
  objects w !! node = Some n ->
  Wf w ->
  Wf (mkWorld (objects w) (dict_set (node_id n) node (self_nodes w))
              (monitor w) (<[th := Returned]> (requests w))
              (history w ++ [Register (cpu_cores n) (container_id n)
                                      (node_id n) (last_heartbeat n)])).
Proof.
  intros Hth0 Hn0 [Hk Hi Ha Hr Hhd Hls Hpr].
  destruct (Hpr th _ node Hth0 eq_refl)
    as ((n0 & Hn0' & Hst0 & Hav0 & Hpods0) & Hreach0 & Hnh0 & Huniq0).
  assert (n0 = n) as -> by congruence.
  constructor; simpl; try done.
  - by apply dict_set_NoDup.
  - intros id l [Hl|Hl]%elem_of_app.
    + apply dict_set_elem in Hl as [Hl|[-> ->]].
      * destruct (Hr id l) as (n' & ? & ? & ?); [apply elem_of_app; by left|].
        exists n'. eauto using stored_mono.
      * exists n. do 4 (split; [done|]). exists (last_heartbeat n).
        apply elem_of_app. right. by left.
    + destruct (Hr id l) as (n' & ? & ? & ?); [apply elem_of_app; by right|].
      exists n'. eauto using stored_mono.
  - intros th' r' l [[-> ->]|[Hne Hth']]%(thread_insert _ _ _ _ _ _ Hth0) Hh;
      [done|].
    destruct (Hhd th' r' l Hth' Hh) as (n' & ? & ?).
    exists n'. eauto using stored_mono.
  - intros th' r' j [[-> ->]|[Hne Hth']]%(thread_insert _ _ _ _ _ _ Hth0) Hj.
    + by apply elem_of_nil in Hj.
    + destruct (Hls th' r' j Hth' Hj) as (n' & ? & ?).
      exists n'. eauto using stored_mono.
  - intros th' r' l [[-> ->]|[Hne Hth']]%(thread_insert _ _ _ _ _ _ Hth0) Hp;
      [done|].
    destruct (Hpr th' r' l Hth' Hp) as (Hobj & Hreach & Hnh & Huniq).
    split_and!; [done| | |].
    + intros ([id l'] & -> & [Hin|Hin]%elem_of_app)%list_elem_of_fmap.
      * apply dict_set_elem in Hin as [Hin|[-> ->]].
        -- apply Hreach. apply list_elem_of_fmap. exists (id, l').
           split; [done|]. apply elem_of_app. by left.
        -- apply Hne. by apply (Huniq0 th' r' Hth').
      * apply Hreach. apply list_elem_of_fmap. exists (id, l').
        split; [done|]. apply elem_of_app. by right.
    + intros th'' r'' [[-> ->]|[Hne' Hth'']]%(thread_insert _ _ _ _ _ _ Hth0);
        [done|eauto].
    + intros th'' r'' [[-> ->]|[Hne' Hth'']]%(thread_insert _ _ _ _ _ _ Hth0);
        [done|eauto].
Qed.

(** [list(self.nodes.items())]. *)
Lemma Wf_snapshot w t :
  monitor w = AtSnapshot t ->
  Wf w ->
  Wf (mkWorld (objects w) (self_nodes w) (AtTest t (self_nodes w)) (requests w)
              (history w ++ [Scan t])).
Proof.
  intros Hm Hwf. apply (Wf_history _ [Scan t]) in Hwf.
  destruct Hwf as [Hk Hi Ha Hr Hhd Hls Hpr]. simpl in *.
  assert (Hsub : forall x,
            x ∈ self_nodes w ++ self_nodes w ->
            x ∈ reach (mkWorld (objects w) (self_nodes w) (monitor w)
                               (requests w) (history w ++ [Scan t]))).
  { intros x [?|?]%elem_of_app; apply elem_of_app; by left. }
  constructor; simpl; try done.
  - intros id l Hl. apply Hr. by apply Hsub.
  - intros th r l Hth Hp.
    destruct (Hpr th r l Hth Hp) as (Hobj & Hreach & Hnh & Huniq).
    split_and!; [done| |done|done].
    intros ([id l'] & -> & Hin)%list_elem_of_fmap. apply Hreach.
    apply list_elem_of_fmap. exists (id, l'). split; [done|]. by apply Hsub.
Qed.

(** Apply a lemma about a world given field by field. *)
Ltac use lem :=
  let H := fresh in
  pose proof lem as H;
  cbn [objects self_nodes monitor requests history] in H;
  apply H; clear H.

Lemma Wf_request_turn w th uuid clock :
  Wf w -> Wf (request_turn w th uuid clock).
Proof.
  intros Hwf. unfold request_turn. cbv zeta.
  destruct (requests w !! th) as [r|] eqn:Hth; [|done].
  destruct r as [cpu cid|cid node|node|id|id| |pos size acc|node pos size acc
                |result| | ]; try done.
  - by apply Wf_alloc.
  - use (Wf_thread
             (mkWorld (alter (set_container_id cid) node (objects w))
                      (self_nodes w) (monitor w) (requests w) (history w))
             th (AtSetContainer cid node) (AtStore node)); simpl; [done|by right|done| |].
    + intros j Hj. by apply elem_of_nil in Hj.
    + by eapply Wf_set_container.
  - destruct (objects w !! node) as [n|] eqn:Hn; [|done]. by apply Wf_store.
  - use (Wf_thread w th (AtMember id)
              (match dict_get id (self_nodes w) with
               | Some _ => AtBeat id
               | None => Returned
               end)); [done| | | |done];
      destruct (dict_get id (self_nodes w)); simpl; try by left.
    all: try done.
    all: intros j Hj; by apply elem_of_nil in Hj.
  - destruct (dict_get id (self_nodes w)) as [node|] eqn:Hget.
    + apply dict_get_elem in Hget.
      use (Wf_thread
               (mkWorld (alter (set_last_heartbeat clock) node (objects w))
                        (self_nodes w) (monitor w) (requests w)
                        (history w ++ [Heartbeat id clock]))
               th (AtBeat id) Returned); simpl; [done|by left|done| |].
      * intros j Hj. by apply elem_of_nil in Hj.
      * use (Wf_history
                 (mkWorld (alter (set_last_heartbeat clock) node (objects w))
                          (self_nodes w) (monitor w) (requests w) (history w))).
        apply (Wf_alter w id); [|done|done|done].
        apply elem_of_app. by left.
    + use (Wf_thread w th (AtBeat id) Returned); simpl; [done|by left|done| |done].
      intros j Hj. by apply elem_of_nil in Hj.
  - use (Wf_thread w th AtValues (AtNext 0 (length (self_nodes w)) [])); simpl; [done|by left|done| |done].
    intros j Hj. by apply elem_of_nil in Hj.
  - pose proof (fun j => wf_listed w Hwf th _ j Hth) as Hacc. simpl in Hacc.
    use (Wf_thread w th (AtNext pos size acc)
           (if negb (length (self_nodes w) =? size)%nat then ListAborted
            else match self_nodes w !! pos with
                 | Some (_, node) => AtToDict node (S pos) size acc
                 | None => Listed acc
                 end)); [done| | | |done].
    + destruct (negb _); [by left|].
      destruct (self_nodes w !! pos) as [[id node]|]; by left.
    + intros node. destruct (negb _); [done|].
      destruct (self_nodes w !! pos) as [[id node']|] eqn:Hpos; [|done].
      simpl. intros [= ->].
      assert (Hin : (id, node) ∈ reach w).
      { apply elem_of_app. left. by eapply list_elem_of_lookup_2. }
      split.
      * destruct (wf_reach w Hwf id node Hin) as (n & ? & ? & ?). eauto.
      * intros th' r' Hth' Hp.
        destruct (wf_private w Hwf th' r' node Hth' Hp) as (_ & Hreach & _).
        apply Hreach. apply list_elem_of_fmap. by exists (id, node).
    + intros j. destruct (negb _); [intros Hj; by apply elem_of_nil in Hj|].
      destruct (self_nodes w !! pos) as [[id node']|]; simpl; apply Hacc.
  - destruct (objects w !! node) as [n|] eqn:Hn; [|done].
    pose proof (fun j => wf_listed w Hwf th _ j Hth) as Hacc. simpl in Hacc.
    destruct (wf_held w Hwf th _ node Hth eq_refl) as (n' & Hn' & Hs).
    assert (n' = n) as -> by congruence.
    use (Wf_thread w th (AtToDict node pos size acc)
                     (AtNext pos size (acc ++ [to_dict n]))); simpl;
      [done|by left|done| |done].
    intros j [Hj|Hj%list_elem_of_singleton]%elem_of_app;
      [by apply Hacc|subst j; eauto].
Qed.

Lemma Wf_monitor_turn w clock : Wf w -> Wf (monitor_turn w clock).
Proof.
  intros Hwf. unfold monitor_turn. cbv zeta.
  destruct (monitor w) as [|t|t items|pc t id node items|] eqn:Hm; [| | | |done].
  - apply Wf_monitor; [|done|done]. apply sublist_nil_l.
  - by apply Wf_snapshot.
  - assert (Hitems : scan_items (monitor w) = items) by (by rewrite Hm).
    destruct items as [|[id node] items].
    + apply Wf_monitor; [|done|done]. apply sublist_nil_l.
    + destruct (wf_reach w Hwf id node) as (n & -> & _).
      { apply elem_of_app. right. rewrite Hitems. left. }
      destruct (float_gt _ _); apply Wf_monitor; try done; rewrite Hitems;
        simpl; [done|by apply sublist_cons].
  - assert (Hitems : scan_items (monitor w) = (id, node) :: items)
      by (by rewrite Hm).
    assert (Hin : (id, node) ∈ reach w).
    { apply elem_of_app. right. rewrite Hitems. left. }
    assert (Hsub : items `sublist_of` scan_items (monitor w)).
    { rewrite Hitems. by apply sublist_cons. }
    destruct (wf_reach w Hwf id node Hin) as (n & Hn & _).
    destruct pc.
    + rewrite Hn. destruct (status n); apply Wf_monitor; try done;
        by rewrite Hitems.
    + use (Wf_monitor
               (mkWorld (alter (set_status NotReady) node (objects w))
                        (self_nodes w) (monitor w) (requests w) (history w)));
        [done|done|]. by apply (Wf_alter w id).
    + rewrite Hn. destruct (status n); apply Wf_monitor; try done;
        by rewrite Hitems.
    + use (Wf_monitor
               (mkWorld (alter (set_status Failed) node (objects w))
                        (self_nodes w) (monitor w) (requests w) (history w)));
        [done|done|]. by apply (Wf_alter w id).
Qed.

Lemma Wf_exec_turn w turn : Wf w -> Wf (exec_turn w turn).
Proof.
  destruct turn; simpl.
  - by apply Wf_spawn.
  - by apply Wf_spawn.
  - by apply Wf_spawn.
  - apply Wf_request_turn.
  - apply Wf_monitor_turn.
Qed.

Lemma Wf_exec w turns : Wf w -> Wf (exec w turns).
Proof.
  revert w. induction turns as [|turn turns IH]; intros w Hwf; [done|].
  simpl. apply IH. by apply Wf_exec_turn.
Qed.

(** ** One record of the registry along a serial run *)











(** ** Reading the dictionary *)





(** ** The registry stays that of a serial run *)
















(** ** Every turn keeps the registry serial *)










(** ** Who writes what *)






(** ** A heartbeat is not lost *)




(** ** A status transition is not lost *)



(** ** The scan works on its snapshot *)





(** ** A scan that runs alone *)











(** ** The claim *)



(** A listing is not atomic, though: [list_nodes] iterates over the
    dictionary itself, and a registration stored in between makes the
    iterator raise. *)
Example listing_overtaken :
  requests (exec init overtaken_listing) !! 0%nat = Some ListAborted.
Proof. reflexivity. Qed.
